(** * Glacier tile-preparation scripts: a shallow embedding

    Three independent batch scripts are modelled here, one module each:

    - [Copier]      : python/clean_glacier_id_columns.py
    - [TileBuilder] : python/convert_geojson_to_mbtiles.py
    - [Exploder]    : python/convert_mbtiles_to_pbf.py

    The scripts are loops over a directory listing that read files, print
    lines and start external programs.  Each module threads an explicit
    world (directory contents, console output, programs started) through
    the loop; a Python exception is a result [Raise e] that leaves the
    loop at once, exactly as an uncaught exception leaves a [for]. *)

From Stdlib Require Import ZArith Ascii String List.
From stdpp Require Import base tactics option list strings pretty.
Import ListNotations.

Local Open Scope string_scope.
Local Open Scope Z_scope.
Local Open Scope list_scope.

(** ** Python values and library functions shared by the scripts *)

Module Py.

(** Exception classes the scripts mention or can meet, with Python's
    subclass order. *)
Inductive exn_class :=
| OperationalError      (* sqlite3.OperationalError <: DatabaseError *)
| DatabaseError         (* sqlite3.DatabaseError <: sqlite3.Error *)
| SqliteError           (* sqlite3.Error *)
| ValueError
| JSONDecodeError       (* json.JSONDecodeError <: ValueError *)
| UnicodeEncodeError    (* <: UnicodeError <: ValueError *)
| OSError
| CalledProcessError    (* subprocess.CalledProcessError *)
| TypeError
| AttributeError
| KeyError
| OtherError.           (* any class outside the ones above *)

Record exn := Exn { exn_cls : exn_class; exn_str : string }.

Definition exn_class_eqb (a b : exn_class) : bool :=
  match a, b with
  | OperationalError, OperationalError | DatabaseError, DatabaseError
  | SqliteError, SqliteError | ValueError, ValueError
  | JSONDecodeError, JSONDecodeError | UnicodeEncodeError, UnicodeEncodeError
  | OSError, OSError
  | CalledProcessError, CalledProcessError | TypeError, TypeError
  | AttributeError, AttributeError | KeyError, KeyError
  | OtherError, OtherError => true
  | _, _ => false
  end.

(** Superclass among the classes above, [None] for the classes that derive
    from Exception (UnicodeError, between UnicodeEncodeError and ValueError,
    is not named by any script and is left out). *)
Definition superclass (c : exn_class) : option exn_class :=
  match c with
  | OperationalError => Some DatabaseError
  | DatabaseError => Some SqliteError
  | JSONDecodeError => Some ValueError
  | UnicodeEncodeError => Some ValueError
  | _ => None
  end.

(** [isinstance e c]: the class of [e] is [c] or derives from it.  The
    subclass chains above have length at most three. *)
Definition subclass (c d : exn_class) : bool :=
  exn_class_eqb c d
  || match superclass c with
     | None => false
     | Some c1 =>
         exn_class_eqb c1 d
         || match superclass c1 with
            | None => false
            | Some c2 => exn_class_eqb c2 d
            end
     end.

Definition isinstance (e : exn) (c : exn_class) : bool := subclass (exn_cls e) c.

(** The outcome of running Python code: a value or a raised exception. *)
Inductive result (A : Type) :=
| Ok (a : A)
| Raise (e : exn).
Arguments Ok {A} a.
Arguments Raise {A} e.

Definition rbind {A B} (r : result A) (k : A → result B) : result B :=
  match r with
  | Ok a => k a
  | Raise e => Raise e
  end.

(** [s.endswith(suffix)] *)
Definition endswith (s suffix : string) : bool :=
  let n := String.length s in
  let k := String.length suffix in
  (k <=? n)%nat && String.eqb (substring (n - k) k s) suffix.

(** [needle in haystack] for two strings. *)
Definition str_contains (needle haystack : string) : bool :=
  match index 0 needle haystack with
  | Some _ => true
  | None => false
  end.

(** [s.split(sep)[0]]: the text before the first [sep], all of [s] when
    [sep] does not occur. *)
Fixpoint split_first (sep : ascii) (s : string) : string :=
  match s with
  | EmptyString => EmptyString
  | String c rest =>
      if Ascii.eqb c sep then EmptyString else String c (split_first sep rest)
  end.

(** Position of the last [c] in [s], as [s.rfind(c)]; [-1] when absent. *)
Fixpoint rfind_from (c : ascii) (s : string) (i : Z) (found : Z) : Z :=
  match s with
  | EmptyString => found
  | String a rest => rfind_from c rest (i + 1) (if Ascii.eqb a c then i else found)
  end.

Definition rfind (c : ascii) (s : string) : Z := rfind_from c s 0 (-1).

(** [s[i:j]] for [0 <= i <= j]. *)
Definition slice (s : string) (i j : Z) : string :=
  substring (Z.to_nat i) (Z.to_nat (j - i)) s.

(** [posixpath.basename]: the text after the last slash. *)
Definition basename (p : string) : string :=
  let i := rfind "/" p + 1 in
  slice p i (Z.of_nat (String.length p)).

(** [posixpath.join(a, b)] *)
Definition path_join (a b : string) : string :=
  if String.prefix "/" b then b
  else if String.eqb a "" || endswith a "/" then a +:+ b
  else a +:+ "/" +:+ b.

(** [all(ch == '.' for ch in s)] *)
Fixpoint all_dots (s : string) : bool :=
  match s with
  | EmptyString => true
  | String c rest => Ascii.eqb c "." && all_dots rest
  end.

(** [posixpath.splitext(p)[0]] (genericpath._splitext): the extension starts
    at the last dot of the last path component; leading dots of that
    component do not start an extension. *)
Definition splitext_root (p : string) : string :=
  let sepIndex := rfind "/" p in
  let dotIndex := rfind "." p in
  if sepIndex <? dotIndex then
    if all_dots (slice p (sepIndex + 1) dotIndex) then p
    else slice p 0 dotIndex
  else p.

(** [c not in s] for a character [c]. *)
Fixpoint lacks (c : ascii) (s : string) : bool :=
  match s with
  | EmptyString => true
  | String a rest => negb (Ascii.eqb a c) && lacks c rest
  end.

(** Whether [s] holds a NUL character. *)
Definition has_nul (s : string) : bool := negb (lacks "000" s).

(** A Python [str] is represented by its UTF-8 bytes; a lone surrogate
    (U+D800 to U+DFFF), which a [str] can hold and UTF-8 cannot encode, by
    the three bytes the generalised encoding gives it: 0xED, then a byte
    from 0xA0 to 0xBF, then a continuation byte.  In UTF-8 proper the byte
    after 0xED is below 0xA0, so this tells whether [s] holds one. *)
Fixpoint has_surrogate (s : string) : bool :=
  match s with
  | EmptyString => false
  | String a rest =>
      match rest with
      | String b _ =>
          (nat_of_ascii a =? 237)%nat
          && (160 <=? nat_of_ascii b)%nat && (nat_of_ascii b <=? 191)%nat
      | EmptyString => false
      end
      || has_surrogate rest
  end.

(** [[f(x) for x in xs]], stopping at the first exception. *)
Fixpoint mapM {A B} (f : A → result B) (xs : list A) : result (list B) :=
  match xs with
  | [] => Ok []
  | x :: rest =>
      match f x with
      | Raise e => Raise e
      | Ok y =>
          match mapM f rest with
          | Raise e => Raise e
          | Ok ys => Ok (y :: ys)
          end
      end
  end.

(** Code that runs against a world [W]: it returns or raises, and in both
    cases leaves a world behind. *)
Definition M (W A : Type) : Type := W → result A * W.

Definition ret {W A} (a : A) : M W A := λ w, (Ok a, w).
Definition raise {W A} (e : exn) : M W A := λ w, (Raise e, w).
Definition lift {W A} (r : result A) : M W A := λ w, (r, w).
Definition bind {W A B} (c : M W A) (k : A → M W B) : M W B :=
  λ w, match c w with
       | (Ok a, w') => k a w'
       | (Raise e, w') => (Raise e, w')
       end.

(** [try: c  except <classes> as e: handler(e)]; [caught] tells whether the
    except clause matches the exception. *)
Definition try_except {W A} (c : M W A) (caught : exn → bool) (handler : exn → M W A)
  : M W A :=
  λ w, match c w with
       | (Raise e, w') => if caught e then handler e w' else (Raise e, w')
       | (Ok a, w') => (Ok a, w')
       end.

(** [for x in xs: body(x)] *)
Fixpoint for_each {W A} (xs : list A) (body : A → M W unit) : M W unit :=
  match xs with
  | [] => ret tt
  | x :: rest => bind (body x) (λ _, for_each rest body)
  end.

End Py.

Notation "'let!' x ':=' c 'in' k" := (Py.bind c (λ x, k))
  (at level 10, x pattern, c at level 100, k at level 200).

(** ** The Property Copier (python/clean_glacier_id_columns.py) *)

Module Copier.
Import Py.

(** What [json.load] returns.  A float is kept as its literal: the script
    never computes with one. *)
#[warnings="-register-all"]
Inductive json :=
| JNull
| JBool (b : bool)
| JInt (z : Z)
| JFloat (literal : string)
| JStr (s : string)
| JList (items : list json)
| JDict (items : list (string * json)).

(** A Python dict with string keys, in insertion order.  [json.load] builds
    every dict and list afresh: a key occurs once, and no two places of a
    document share an object.  Lookup and assignment act on the first pair
    that has the key. *)
Definition dict := list (string * json).

Fixpoint dict_get (k : string) (d : dict) : option json :=
  match d with
  | [] => None
  | (k', v) :: rest => if String.eqb k' k then Some v else dict_get k rest
  end.

(** [k in d] *)
Definition dict_contains (k : string) (d : dict) : bool :=
  match dict_get k d with Some _ => true | None => false end.

(** [d[k] = v]: an existing key keeps its place, a new key goes last. *)
Fixpoint dict_set (k : string) (v : json) (d : dict) : dict :=
  match d with
  | [] => [(k, v)]
  | (k', v') :: rest =>
      if String.eqb k' k then (k', v) :: rest else (k', v') :: dict_set k v rest
  end.

Definition type_name (v : json) : string :=
  match v with
  | JNull => "NoneType" | JBool _ => "bool" | JInt _ => "int"
  | JFloat _ => "float" | JStr _ => "str" | JList _ => "list" | JDict _ => "dict"
  end.

(** The texts of the built-in exceptions below follow CPython 3; they differ
    a little between versions and nothing here depends on them. *)
Definition no_attribute_get (v : json) : exn :=
  Exn AttributeError ("'" +:+ type_name v +:+ "' object has no attribute 'get'").

Definition is_str (s : string) (v : json) : bool :=
  match v with JStr t => String.eqb t s | _ => false end.

Fixpoint chars (s : string) : list json :=
  match s with
  | EmptyString => []
  | String c rest => JStr (String c EmptyString) :: chars rest
  end.

(** [for x in v]: the items a [for] loop visits. *)
Definition py_iter (v : json) : result (list json) :=
  match v with
  | JList items => Ok items
  | JDict items => Ok (map (λ kv, JStr (fst kv)) items)
  | JStr s => Ok (chars s)
  | _ => Raise (Exn TypeError ("'" +:+ type_name v +:+ "' object is not iterable"))
  end.

(** [k in v] for a string [k] *)
Definition py_contains (k : string) (v : json) : result bool :=
  match v with
  | JDict items => Ok (dict_contains k items)
  | JList items => Ok (existsb (is_str k) items)
  | JStr s => Ok (str_contains k s)
  | _ => Raise (Exn TypeError ("argument of type '" +:+ type_name v +:+ "' is not iterable"))
  end.

(** [v[k]] for a string [k] *)
Definition py_getitem (v : json) (k : string) : result json :=
  match v with
  | JDict items =>
      match dict_get k items with
      | Some x => Ok x
      | None => Raise (Exn KeyError ("'" +:+ k +:+ "'"))
      end
  | JList _ => Raise (Exn TypeError "list indices must be integers or slices, not str")
  | JStr _ => Raise (Exn TypeError "string indices must be integers, not 'str'")
  | _ => Raise (Exn TypeError ("'" +:+ type_name v +:+ "' object is not subscriptable"))
  end.

(** [v[k] = x] for a string [k]; the result is [v] after the assignment. *)
Definition py_setitem (v : json) (k : string) (x : json) : result json :=
  match v with
  | JDict items => Ok (JDict (dict_set k x items))
  | JList _ => Raise (Exn TypeError "list indices must be integers or slices, not str")
  | _ => Raise (Exn TypeError ("'" +:+ type_name v
                               +:+ "' object does not support item assignment"))
  end.

(** The body of the inner loop (lines 40-41), on one item of the features
    list; the result is the item after the body ran.

      if "SGI" in feature.get("properties", {}):
          feature["properties"]["sgi-id"] = feature["properties"]["SGI"]     *)
Definition process_feature (feature : json) : result json :=
  match feature with
  | JDict members =>
      rbind (py_contains "SGI" (default (JDict []) (dict_get "properties" members)))
        (λ present,
          if present : bool then
            rbind (py_getitem feature "properties") (λ properties,
            rbind (py_getitem properties "SGI") (λ sgi,
            rbind (py_setitem properties "sgi-id" sgi) (λ properties',
              (* the mapping is mutated in place, and the feature holds it *)
              Ok (JDict (dict_set "properties" properties' members)))))
          else Ok feature)
  | _ => Raise (no_attribute_get feature)
  end.

(** Lines 39-41 on the loaded document; the result is the document after the
    loop.  The items of a list are the objects the document holds, so their
    mutation shows in the document; iterating over a dict or a string visits
    fresh strings. *)
Definition process_data (geojson_data : json) : result json :=
  match geojson_data with
  | JDict members =>
      match dict_get "features" members with
      | None => Ok geojson_data       (* the default [] : no iteration *)
      | Some (JList features) =>
          rbind (mapM process_feature features) (λ features',
            Ok (JDict (dict_set "features" (JList features') members)))
      | Some other =>
          rbind (py_iter other) (λ items,
          rbind (mapM process_feature items) (λ _, Ok geojson_data))
      end
  | _ => Raise (no_attribute_get geojson_data)
  end.

(** An entry of the data directory.  A regular file is represented by what
    [json.load] makes of its text: [None] when it raises (text that is not
    JSON, bytes that are not UTF-8; the model raises the JSONDecodeError of
    an empty text for all of them).  [json.dump] of a loaded document, when
    it succeeds, writes text that loads as that document again. *)
Inductive node :=
| Dir
| File (content : option json).

Record world := World {
  files : list (string * node);   (* the entries of DATA_DIR, in listing order *)
  stdout : list string            (* the lines printed so far *)
}.

Fixpoint lookup_entry {A} (name : string) (entries : list (string * A)) : option A :=
  match entries with
  | [] => None
  | (n, x) :: rest => if String.eqb n name then Some x else lookup_entry name rest
  end.

(** Writing a file: an existing entry is replaced, a new one is created. *)
Fixpoint store_entry {A} (name : string) (x : A) (entries : list (string * A))
  : list (string * A) :=
  match entries with
  | [] => [(name, x)]
  | (n, y) :: rest =>
      if String.eqb n name then (n, x) :: rest else (n, y) :: store_entry name x rest
  end.

Definition print (line : string) : M world unit :=
  λ w, (Ok tt, World (files w) (stdout w ++ [line])).

(** [os.listdir(DATA_DIR)] *)
Definition listdir : M world (list string) :=
  λ w, (Ok (map fst (files w)), w).

(** [with open(path, "r", encoding="utf-8") as file: json.load(file)], where
    [path] is the entry [name] of DATA_DIR. *)
Definition load (name : string) : M world json :=
  λ w, match lookup_entry name (files w) with
       | None => (Raise (Exn OSError "No such file or directory"), w)
       | Some Dir => (Raise (Exn OSError "Is a directory"), w)
       | Some (File None) => (Raise (Exn JSONDecodeError "Expecting value"), w)
       | Some (File (Some v)) => (Ok v, w)
       end.

(** Whether the text [json.dump(v, ..., ensure_ascii=False)] produces can be
    encoded as UTF-8: no string of the document, key or value, holds a lone
    surrogate.  ([json.load] accepts the escape of one, as in ["\ud800"].) *)
Fixpoint dumpable (v : json) : bool :=
  match v with
  | JStr s => negb (has_surrogate s)
  | JList items => forallb dumpable items
  | JDict items =>
      forallb (λ kv, let '(k, x) := kv in negb (has_surrogate k) && dumpable x) items
  | _ => true
  end.

(** The exception of a write that meets a lone surrogate; the text Python
    gives also names the character and where it stands. *)
Definition surrogates_not_allowed : exn :=
  Exn UnicodeEncodeError "'utf-8' codec can't encode character: surrogates not allowed".

(** [with open(path, "w", encoding="utf-8") as new_file:
       json.dump(v, new_file, ensure_ascii=False, indent=2)].
    Opening for writing empties the file.  The text is then written piece by
    piece; a piece that cannot be encoded raises, and the file is left with
    the pieces before it, which are not a JSON text (the closing bracket of
    the document, or all of a document that is one string, is missing). *)
Definition dump (name : string) (v : json) : M world unit :=
  λ w, match lookup_entry name (files w) with
       | Some Dir => (Raise (Exn OSError "Is a directory"), w)
       | _ =>
           if dumpable v
           then (Ok tt, World (store_entry name (File (Some v)) (files w)) (stdout w))
           else (Raise surrogates_not_allowed,
                 World (store_entry name (File None) (files w)) (stdout w))
       end.

Section Script.

(** The directory the script scans; entry [filename] of it has the path
    [os.path.join(DATA_DIR, filename)]. *)
Variable DATA_DIR : string.

(** Lines 32-47, for one name of the listing that ends in [.geojson]. *)
Definition process_file (filename : string) : M world unit :=
  let file_path := path_join DATA_DIR filename in
  let! geojson_data := load filename in
  let! updated := lift (process_data geojson_data) in
  let! _ := dump filename updated in
  print ("Processed and saved: " +:+ file_path).

(** Lines 30-47. *)
Definition main : M world unit :=
  let! names := listdir in
  for_each names (λ filename,
    if endswith filename ".geojson" then process_file filename else ret tt).

End Script.

(** The items the script's inner loop mutates: the features list of a
    document. *)
Definition features_of (data : json) : list json :=
  match data with
  | JDict members =>
      match dict_get "features" members with
      | Some (JList features) => features
      | _ => []
      end
  | _ => []
  end.

(** The property mapping of a feature, when it has one. *)
Definition properties_of (feature : json) : option dict :=
  match feature with
  | JDict members =>
      match dict_get "properties" members with
      | Some (JDict properties) => Some properties
      | _ => None
      end
  | _ => None
  end.

(** How a run that ends without an exception leaves an entry of the
    directory: a [.geojson] entry held a document and now holds the
    processed document, which could be written, under the same name; any
    other entry is as it was. *)
Definition entry_after (before after : string * node) : Prop :=
  fst after = fst before ∧
  if endswith (fst before) ".geojson" then
    ∃ data data', snd before = File (Some data)
                  ∧ process_data data = Ok data'
                  ∧ dumpable data' = true
                  ∧ snd after = File (Some data')
  else snd after = snd before.

(** The scenario of the specification: [glacier_A.geojson] with one feature
    whose properties hold [SGI = "B36-26"] and no [sgi-id]; a second feature
    without the source key and a file of another kind are added. *)
Definition glacier_feature : json :=
  JDict [("type", JStr "Feature");
         ("properties", JDict [("SGI", JStr "B36-26"); ("name", JStr "Aletsch")]);
         ("geometry", JNull)].

Definition lake_feature : json :=
  JDict [("type", JStr "Feature");
         ("properties", JDict [("name", JStr "lac")]);
         ("geometry", JNull)].

Definition glacier_A : json :=
  JDict [("type", JStr "FeatureCollection");
         ("features", JList [glacier_feature; lake_feature])].

Definition data_dir : world :=
  World [("glacier_A.geojson", File (Some glacier_A)); ("notes.txt", File None)] [].

(** The exception that loading, processing and writing back an entry
    raises, when one of them raises, with what the entry holds afterwards: a
    directory cannot be opened as a file, a file whose text does not load is
    left alone, a document that makes the loop raise is left alone, and a
    processed document that cannot be written leaves the file with a part of
    its text. *)
Definition entry_failure (x : node) : option (exn * node) :=
  match x with
  | Dir => Some (Exn OSError "Is a directory", Dir)
  | File None => Some (Exn JSONDecodeError "Expecting value", File None)
  | File (Some data) =>
      match process_data data with
      | Raise e => Some (e, x)
      | Ok data' =>
          if dumpable data' then None else Some (surrogates_not_allowed, File None)
      end
  end.

(** The line printed for a processed name (line 47). *)
Definition saved_line (DATA_DIR filename : string) : string :=
  "Processed and saved: " +:+ path_join DATA_DIR filename.

(** A directory whose second feature collection is not JSON. *)
Definition broken_dir : world :=
  World [ ("glacier_A.geojson", File (Some glacier_A));
          ("glacier_B.geojson", File None);
          ("glacier_C.geojson", File (Some glacier_A)) ] [].

(** A feature collection that loads and cannot be written back: the name of
    its feature ends in the lone surrogate U+D800 (bytes ED A0 80). *)
Definition lone_surrogate : string :=
  String (ascii_of_nat 237) (String (ascii_of_nat 160) (String (ascii_of_nat 128) EmptyString)).

Definition glacier_S : json :=
  JDict [("type", JStr "FeatureCollection");
         ("features",
          JList [JDict [("type", JStr "Feature");
                        ("properties",
                         JDict [("SGI", JStr "B36-26");
                                ("name", JStr ("Aletsch" +:+ lone_surrogate))])]])].

Definition surrogate_dir : world :=
  World [ ("glacier_A.geojson", File (Some glacier_A));
          ("glacier_S.geojson", File (Some glacier_S));
          ("glacier_C.geojson", File (Some glacier_A)) ] [].


End Copier.

(** ** The Tile Builder Invoker (python/convert_geojson_to_mbtiles.py) *)

Module TileBuilder.
Import Py.

(** What [subprocess.run(command, check=True)] meets: the program ran and
    exited with a return code, or it could not be started and [run] raises
    (FileNotFoundError, PermissionError: the OSError family). *)
Inductive run_outcome :=
| Exited (returncode : Z)
| NotStarted (e : exn).

(** What an observer of the script sees, in order. *)
Inductive event :=
| Printed (line : string)
| Ran (command : list string) (outcome : run_outcome).

Section Script.

(** The external tiling tool: whatever it acts on has a state of type
    [Tool], which every invocation may change. *)
Variable Tool : Type.
Variable tippecanoe : list string → Tool → run_outcome * Tool.

(** [str(e)] of the CalledProcessError that [subprocess.run] builds from
    the command and the return code (the standard library's text). *)
Variable CalledProcessError_str : list string → Z → string.

Record world := World {
  cwd : string;             (* os.getcwd() *)
  entries : list string;    (* os.listdir(cwd), read once before the loop *)
  tool : Tool;
  trace : list event
}.

Definition emit (ev : event) (w : world) : world :=
  World (cwd w) (entries w) (tool w) (trace w ++ [ev]).

Definition print (line : string) : M world unit :=
  λ w, (Ok tt, emit (Printed line) w).

Definition getcwd : M world string := λ w, (Ok (cwd w), w).
Definition listdir : M world (list string) := λ w, (Ok (entries w), w).

(** [subprocess.run(command, check=True)] *)
Definition subprocess_run_check (command : list string) : M world unit :=
  λ w, let (outcome, tool') := tippecanoe command (tool w) in
       let w' := emit (Ran command outcome) (World (cwd w) (entries w) tool' (trace w)) in
       match outcome with
       | Exited 0 => (Ok tt, w')
       | Exited returncode =>
           (Raise (Exn CalledProcessError (CalledProcessError_str command returncode)), w')
       | NotStarted e => (Raise e, w')
       end.

(** Lines 50-51. *)
Definition output_filename_of (filename : string) : string :=
  splitext_root filename +:+ ".mbtiles".

(** Lines 56-64. *)
Definition command_of (tippecanoe_path : string) (zoom_levels : Z * Z)
    (current_directory filename : string) : list string :=
  [ tippecanoe_path;
    "-o"; path_join current_directory (output_filename_of filename);
    "-z"; pretty (snd zoom_levels);
    "-Z"; pretty (fst zoom_levels);
    "--generate-ids";
    "-f";
    path_join current_directory filename ].

(** Lines 49-70: the body of the loop for a name that ends in [.geojson]. *)
Definition convert_one (tippecanoe_path : string) (zoom_levels : Z * Z)
    (current_directory filename : string) : M world unit :=
  let output_filename := output_filename_of filename in
  let! _ := print ("Converting " +:+ filename +:+ " to " +:+ output_filename +:+ "...") in
  let command := command_of tippecanoe_path zoom_levels current_directory filename in
  try_except
    (let! _ := subprocess_run_check command in
     print ("Successfully created " +:+ output_filename))
    (λ e, isinstance e CalledProcessError)
    (λ e, print ("Error converting " +:+ filename +:+ ": " +:+ exn_str e)).

(** Lines 35-70. *)
Definition convert_geojson_to_mbtiles (tippecanoe_path : string) (zoom_levels : Z * Z)
  : M world unit :=
  let! current_directory := getcwd in
  let! names := listdir in
  for_each names (λ filename,
    if endswith filename ".geojson"
    then convert_one tippecanoe_path zoom_levels current_directory filename
    else ret tt).

(** Lines 73-74: the call with the default arguments. *)
Definition main : M world unit := convert_geojson_to_mbtiles "tippecanoe" (6, 14).

(** What one [.geojson] name adds to the trace when the tool exits with
    [returncode]: the announcement, the run, and the success line or the
    error line that names the file and carries the error's text. *)
Definition file_events (tippecanoe_path : string) (zoom_levels : Z * Z)
    (current_directory filename : string) (returncode : Z) : list event :=
  let command := command_of tippecanoe_path zoom_levels current_directory filename in
  [ Printed ("Converting " +:+ filename +:+ " to " +:+ output_filename_of filename +:+ "...");
    Ran command (Exited returncode);
    if returncode =? 0
    then Printed ("Successfully created " +:+ output_filename_of filename)
    else Printed ("Error converting " +:+ filename +:+ ": "
                  +:+ CalledProcessError_str command returncode) ].

End Script.

Arguments World {Tool} cwd entries tool trace.
Arguments cwd {Tool} w.
Arguments entries {Tool} w.
Arguments tool {Tool} w.
Arguments trace {Tool} w.

Definition is_geojson (filename : string) : bool := endswith filename ".geojson".

(** What the tool answers when it is started on [commands] one after the
    other, from the state [t]. *)
Fixpoint outcomes_of {Tool} (tippecanoe : list string → Tool → run_outcome * Tool)
    (commands : list (list string)) (t : Tool) : list run_outcome :=
  match commands with
  | [] => []
  | command :: rest =>
      let (outcome, t') := tippecanoe command t in
      outcome :: outcomes_of tippecanoe rest t'
  end.

(** A tool for the examples: its state counts the invocations; the first
    one exits with status 1, the later ones with status 0. *)
Definition flaky_tool (command : list string) (runs : nat) : run_outcome * nat :=
  (Exited (match runs with O => 1 | S _ => 0 end), S runs).

(** For the examples, the error text in the shape of the standard library's
    (the command is left out of it). *)
Definition short_error_str (command : list string) (returncode : Z) : string :=
  "Command returned non-zero exit status " +:+ pretty returncode +:+ ".".

Definition two_files : world nat :=
  World "/maps" ["a.geojson"; "README.md"; "b.geojson"] 0%nat [].

(** The command lines handed to [subprocess.run], oldest first. *)
Definition ran_commands (t : list event) : list (list string) :=
  omap (λ ev, match ev with Ran command _ => Some command | Printed _ => None end) t.

(** A machine without the tool: no invocation can be started. *)
Definition tool_not_found : exn := Exn OSError "No such file or directory: 'tippecanoe'".

Definition absent_tool (command : list string) (t : unit) : run_outcome * unit :=
  (NotStarted tool_not_found, t).

End TileBuilder.

(** ** The Archive Exploder (python/convert_mbtiles_to_pbf.py) *)

Module Exploder.
Import Py.

(** A value of the metadata table as the driver hands it to Python: NULL is
    [None], INTEGER an [int], TEXT a [str]; REAL and BLOB values are kept as
    the text [str()] gives them. *)
Inductive pyzoom :=
| ZNone
| ZInt (z : Z)
| ZStr (s : string)
| ZOther (text : string).

(** [v is None] *)
Definition is_none (v : pyzoom) : bool :=
  match v with ZNone => true | _ => false end.

(** [f"{v}"] *)
Definition format_zoom (v : pyzoom) : string :=
  match v with
  | ZNone => "None"
  | ZInt z => pretty z
  | ZStr s => s
  | ZOther text => text
  end.

(** What [cursor.execute(...)] followed by [cursor.fetchone()] does for one
    of the two SELECT statements: it raises, finds no row, or finds a row
    whose single column holds [value]. *)
Inductive query :=
| QRaise (e : exn)
| QNoRow
| QRow (value : pyzoom).

(** A regular file as the database driver sees it: [sqlite3.connect] fails
    on it, or it opens and the two SELECTs behave as given (a file that is
    not a database, or has no metadata table, raises on the first). *)
Inductive archive :=
| Unopenable (e : exn)
| Database (minzoom maxzoom : query).

Inductive node :=
| Dir
| File (a : archive).

Definition directory := list (string * node).

(** What an observer of the script sees, in order. *)
Inductive event :=
| Printed (line : string)
| Ran (command : string) (status : Z).

Record world := World {
  cwd : directory;        (* the entries of the working directory, in listing order *)
  trace : list event
}.

Fixpoint lookup_entry (name : string) (d : directory) : option node :=
  match d with
  | [] => None
  | (n, x) :: rest => if String.eqb n name then Some x else lookup_entry name rest
  end.

Definition print (line : string) : M world unit :=
  λ w, (Ok tt, World (cwd w) (trace w ++ [Printed line])).

(** [os.listdir(srcDir)] *)
Definition listdir : M world (list string) :=
  λ w, (Ok (map fst (cwd w)), w).

(** Whether the working directory [d] has an entry [name]; the empty path
    names nothing. *)
Definition exists_in (d : directory) (name : string) : bool :=
  negb (String.eqb name "")
  && match lookup_entry name d with Some _ => true | None => false end.

(** [os.path.exists(name)] for a name relative to the working directory. *)
Definition path_exists (name : string) : M world bool :=
  λ w, (Ok (exists_in (cwd w) name), w).

Definition no_such_table : exn := Exn OperationalError "no such table: metadata".

(** [sqlite3.connect(filename)] then [conn.cursor()].  The connection is
    represented by what the two SELECTs will do.  Connecting to a name that
    does not exist creates an empty database file.

    The directory of the model holds the entries of the working directory
    other than the driver's own side files: the [-journal], [-wal] and [-shm]
    files the driver keeps next to a database, and may create, replay and
    delete while it reads, are not entries of it, and a [Database] node tells
    what the driver answers once it has recovered the file.  No such name
    ends in [.mbtiles] or is a target (it holds a dot), so the script never
    tells whether one is there. *)
Definition sqlite3_connect (filename : string) : M world (query * query) :=
  λ w, match lookup_entry filename (cwd w) with
       | Some Dir => (Raise (Exn OperationalError "unable to open database file"), w)
       | Some (File (Unopenable e)) => (Raise e, w)
       | Some (File (Database minq maxq)) => (Ok (minq, maxq), w)
       | None =>
           (Ok (QRaise no_such_table, QRaise no_such_table),
            World (cwd w ++ [(filename,
                              File (Database (QRaise no_such_table) (QRaise no_such_table)))])
                  (trace w))
       end.

(** [cursor.execute("SELECT value ..."); cursor.fetchone()]: [None] when
    there is no row, else the row (a 1-tuple, represented by its item). *)
Definition fetchone (q : query) : M world (option pyzoom) :=
  match q with
  | QRaise e => raise e
  | QNoRow => ret None
  | QRow value => ret (Some value)
  end.

(** Lines 39-50: the line [handle_zoom_level_error] prints. *)
Definition zoom_level_error_line (error : exn) (filename : string) : string :=
  if isinstance error OperationalError then
    "SQLite operational error reading zoom levels from " +:+ filename +:+ ": " +:+ exn_str error
  else if isinstance error DatabaseError then
    "SQLite database error reading zoom levels from " +:+ filename +:+ ": " +:+ exn_str error
  else if isinstance error SqliteError then
    "General SQLite error reading zoom levels from " +:+ filename +:+ ": " +:+ exn_str error
  else if isinstance error ValueError then
    "Value error processing zoom levels from " +:+ filename +:+ ": " +:+ exn_str error
  else if isinstance error OSError then
    "OS error accessing " +:+ filename +:+ ": " +:+ exn_str error
  else
    "Unexpected error reading zoom levels from " +:+ filename +:+ ": " +:+ exn_str error.

(** Lines 28-52. *)
Definition handle_zoom_level_error (error : exn) (filename : string)
  : M world (pyzoom * pyzoom) :=
  let! _ := print (zoom_level_error_line error filename) in
  ret (ZNone, ZNone).

(** The except clause of lines 88-90. *)
Definition caught_by_get_zoom_levels (e : exn) : bool :=
  isinstance e OperationalError || isinstance e DatabaseError
  || isinstance e SqliteError || isinstance e ValueError || isinstance e OSError.

(** Lines 55-96.  The connection is made before the [try]; [conn.close()]
    in the [finally] has no effect an observer sees and is left out. *)
Definition get_zoom_levels (filename : string) : M world (pyzoom * pyzoom) :=
  let! conn := sqlite3_connect filename in
  try_except
    (let! minzoom_result := fetchone (fst conn) in
     let! maxzoom_result := fetchone (snd conn) in
     match minzoom_result, maxzoom_result with
     | Some minzoom, Some maxzoom => ret (minzoom, maxzoom)
     | _, _ =>
         let! _ := print ("Warning: No zoom levels found in metadata for "
                          +:+ filename +:+ ". Skipping file.") in
         ret (ZInt 1, ZInt 12)
     end)
    caught_by_get_zoom_levels
    (λ e, handle_zoom_level_error e filename).

Definition NEW_LINE : string := String "013" (String "010" EmptyString).

(** Lines 133-137. *)
Definition COMMAND_of (newDirName file : string) (minzoom maxzoom : pyzoom) : string :=
  "ogr2ogr -f MVT " +:+ newDirName +:+ " " +:+ file +:+ " "
  +:+ "-dsco MINZOOM=" +:+ format_zoom minzoom
  +:+ " -dsco MAXZOOM=" +:+ format_zoom maxzoom +:+ " "
  +:+ "-dsco COMPRESS=NO -dsco FORMAT=DIRECTORY".

(** Line 118. *)
Definition newDirName_of (file : string) : string :=
  split_first "." (basename file).

Section Script.

(** [os.system] hands the command line to the shell; what the programs it
    starts do to the working directory, and the status they end with, is
    theirs to decide. *)
Variable shell : string → directory → Z * directory.

(** [os.system(command)].  A command line with a NUL character in it is
    refused with a ValueError before anything is started; [embedded_null]
    tells whether this one has a NUL. *)
Definition os_system (command : string) (embedded_null : bool) : M world Z :=
  λ w, if embedded_null then (Raise (Exn ValueError "embedded null byte"), w)
       else
         let (status, cwd') := shell command (cwd w) in
         (Ok status, World cwd' (trace w ++ [Ran command status])).

(** Whether the command built from the two zoom values has a NUL character:
    the rest of it is fixed text and the name of a listed file, and the name
    of a file has none; a TEXT value of the metadata table can have one. *)
Definition zoom_has_nul (minzoom maxzoom : pyzoom) : bool :=
  has_nul (format_zoom minzoom) || has_nul (format_zoom maxzoom).

(** Lines 118-139: the body of the loop for a name that ends in [.mbtiles]. *)
Definition process_archive (file : string) : M world unit :=
  let newDirName := newDirName_of file in
  let! collision := path_exists newDirName in
  if collision : bool then
    print ("Error: Directory '" +:+ newDirName +:+ "' already exists. Skipping command.")
  else
    let! zooms := get_zoom_levels file in
    let minzoom := fst zooms in
    let maxzoom := snd zooms in
    if is_none minzoom || is_none maxzoom then
      print ("Skipping " +:+ file +:+ " due to missing zoom levels.")
    else
      let COMMAND := COMMAND_of newDirName file minzoom maxzoom in
      let! _ := print ("Running " +:+ COMMAND) in
      let! result := os_system COMMAND (zoom_has_nul minzoom maxzoom) in
      ret tt.

Definition is_mbtiles (file : string) : bool := endswith file ".mbtiles".

(** Lines 102-139. *)
Definition main : M world unit :=
  let! _ := print "Requires Python 3! Use python3 from the command line if needed." in
  let! listing := listdir in
  let MBTILES_FILE_COUNT := length (filter (λ file, is_mbtiles file = true) listing) in
  let! _ := print (pretty MBTILES_FILE_COUNT +:+ " mbtiles file(s) found" +:+ NEW_LINE) in
  let! listing := listdir in
  for_each listing (λ file,
    if is_mbtiles file then process_archive file else ret tt).

End Script.

(** The exception the metadata lookup of an archive raises, if it does: the
    first SELECT raises, or the first answers and the second raises. *)
Definition lookup_raises (a : archive) : option exn :=
  match a with
  | Database (QRaise e) _ => Some e
  | Database _ (QRaise e) => Some e
  | _ => None
  end.

(** The commands the script has run, oldest first. *)
Definition commands_run (t : list event) : list string :=
  omap (λ ev, match ev with Ran command _ => Some command | Printed _ => None end) t.

(** [c] keeps the property [I] of the world, whether it returns or raises. *)
Definition preserves {A} (I : world → Prop) (c : M world A) : Prop :=
  ∀ w, I w → I (snd (c w)).

(** A shell for the examples: a command line whose first word is [ogr2ogr]
    creates the directory its fourth word names and ends with status 0;
    anything else is not found. *)
Fixpoint words_from (s current : string) : list string :=
  match s with
  | EmptyString => [current]
  | String c rest =>
      if Ascii.eqb c " " then current :: words_from rest EmptyString
      else words_from rest (current +:+ String c EmptyString)
  end.

Definition mkdir_shell (command : string) (d : directory) : Z * directory :=
  let words := words_from command EmptyString in
  match words !! 0%nat, words !! 3%nat with
  | Some program, Some out =>
      if String.eqb program "ogr2ogr" then (0, d ++ [(out, Dir)]) else (127, d)
  | _, _ => (127, d)
  end.

Definition good_archive : archive := Database (QRow (ZStr "3")) (QRow (ZStr "10")).

(** The scenario of the specification: [x.mbtiles] without metadata rows,
    [y.mbtiles] with zoom 3 to 10 next to a directory [y]. *)
Definition scenario_dir : directory :=
  [ ("x.mbtiles", File (Database QNoRow QNoRow));
    ("y.mbtiles", File good_archive);
    ("y", Dir) ].

(** An archive the user may not read, listed before a good one. *)
Definition permission_denied : exn := Exn OperationalError "unable to open database file".

Definition locked_dir : directory :=
  [ ("a.mbtiles", File (Unopenable permission_denied));
    ("b.mbtiles", File good_archive) ].

(** An archive that is not a database. *)
Definition not_a_database : exn := Exn DatabaseError "file is not a database".

Definition corrupt_dir : directory :=
  [ ("c.mbtiles", File (Database (QRaise not_a_database) (QRaise not_a_database))) ].

(** A SELECT that finds no row, or a value without a NUL character, or
    raises an exception of the driver's classes, a ValueError or an
    OSError. *)
Definition query_caught (q : query) : bool :=
  match q with
  | QRaise e =>
      match exn_cls e with
      | OperationalError | DatabaseError | SqliteError
      | ValueError | JSONDecodeError | UnicodeEncodeError | OSError => true
      | CalledProcessError | TypeError | AttributeError | KeyError | OtherError => false
      end
  | QNoRow => true
  | QRow value => negb (has_nul (format_zoom value))
  end.

(** An entry [sqlite3.connect] opens, whose lookup raises no exception of
    another class and gives no text with a NUL character. *)
Definition opens_and_answers (x : node) : bool :=
  match x with
  | File (Database minq maxq) => query_caught minq && query_caught maxq
  | _ => false
  end.

(** A working directory in which every entry named [*.mbtiles] is such an
    entry. *)
Definition sound_dir (d : directory) : bool :=
  forallb (λ entry, negb (is_mbtiles (fst entry)) || opens_and_answers (snd entry)) d.

(** [command] is the conversion command of one of [names] that ends in
    [.mbtiles], with two zoom values that are not [None]. *)
Definition command_of_listed (names : list string) (command : string) : Prop :=
  ∃ file minzoom maxzoom,
    file ∈ names ∧ is_mbtiles file = true
    ∧ is_none minzoom = false ∧ is_none maxzoom = false
    ∧ command = COMMAND_of (newDirName_of file) file minzoom maxzoom.

(** An archive whose metadata has a [maxzoom] row only, one whose rows hold
    NULL, and one whose lookup raises an exception of a class the except
    clause does not name. *)
Definition half_dir : directory :=
  [ ("h.mbtiles", File (Database QNoRow (QRow (ZStr "9")))) ].

Definition null_dir : directory :=
  [ ("n.mbtiles", File (Database (QRow ZNone) (QRow (ZStr "9")))) ].

Definition interrupted : exn := Exn OtherError "KeyboardInterrupt".

Definition interrupted_dir : directory :=
  [ ("i.mbtiles", File (Database (QRaise interrupted) QNoRow));
    ("j.mbtiles", File good_archive) ].

(** From a world with the property [I], [c] returns, raising nothing, and
    the world it leaves has the property. *)
Definition runs_ok {A} (I : world → Prop) (c : M world A) : Prop :=
  ∀ w, I w → ∃ a w', c w = (Ok a, w') ∧ I w'.

(** The two lines printed before the loop (lines 102 and 113). *)
Definition banner : string :=
  "Requires Python 3! Use python3 from the command line if needed.".

Definition count_line (d : directory) : string :=
  pretty (length (filter (λ file, is_mbtiles file = true) (map fst d)))
  +:+ " mbtiles file(s) found" +:+ NEW_LINE.

(** A shell that starts nothing and changes nothing. *)
Definition idle_shell (command : string) (d : directory) : Z * directory := (127, d).

End Exploder.

(** ** Properties of the Property Copier *)

Module CopierFacts.
Import Py Copier.

(** *** Dicts *)

Lemma dict_get_set_eq k v d : dict_get k (dict_set k v d) = Some v.
Proof.
  induction d as [|[k' v'] d IH]; simpl.
  - by rewrite String.eqb_refl.
  - destruct (String.eqb k' k) eqn:E; simpl; rewrite E; done.
Qed.

Lemma dict_get_set_ne k k' v d :
  k ≠ k' → dict_get k' (dict_set k v d) = dict_get k' d.
Proof.
  intros Hne. induction d as [|[k0 v0] d IH]; simpl.
  - destruct (String.eqb_spec k k'); done.
  - destruct (String.eqb_spec k0 k) as [->|Hk]; simpl.
    + destruct (String.eqb_spec k k'); done.
    + by rewrite IH.
Qed.

Lemma dict_set_same k v d : dict_get k d = Some v → dict_set k v d = d.
Proof.
  induction d as [|[k' v'] d IH]; simpl; [done|].
  destruct (String.eqb k' k); intros H.
  - by simplify_eq.
  - by rewrite IH.
Qed.

Lemma dict_set_twice k v d : dict_set k v (dict_set k v d) = dict_set k v d.
Proof. apply dict_set_same, dict_get_set_eq. Qed.

(** *** One feature *)

(** A feature that has the source key gets the destination key. *)
Lemma process_feature_with_sgi members props v :
  dict_get "properties" members = Some (JDict props) →
  dict_get "SGI" props = Some v →
  process_feature (JDict members)
  = Ok (JDict (dict_set "properties" (JDict (dict_set "sgi-id" v props)) members)).
Proof.
  intros Hp Hv. unfold process_feature. rewrite Hp. simpl.
  unfold dict_contains. rewrite Hv. simpl. rewrite Hp. simpl. by rewrite Hv.
Qed.

(** A feature without the source key is returned as it is. *)
Lemma process_feature_without_sgi feature props :
  properties_of feature = Some props →
  dict_get "SGI" props = None →
  process_feature feature = Ok feature.
Proof.
  unfold properties_of. destruct feature as [| | | | | |members]; try done.
  destruct (dict_get "properties" members) as [[]|] eqn:Hp; try done.
  intros [= ->] Hv. unfold process_feature. rewrite Hp. simpl.
  unfold dict_contains. by rewrite Hv.
Qed.

(** Whatever the loop body returns is a fixed point of the loop body. *)
Lemma process_feature_idem feature feature' :
  process_feature feature = Ok feature' → process_feature feature' = Ok feature'.
Proof.
  destruct feature as [| | | | | |members]; try done.
  unfold process_feature at 1.
  destruct (py_contains "SGI" _) as [[]|] eqn:Hc; simpl; [| |done].
  2: { intros [= <-]. unfold process_feature. by rewrite Hc. }
  destruct (dict_get "properties" members) as [properties|] eqn:Hp; simpl in *; [|done].
  destruct properties as [| | | | | |props]; simpl in *; try done.
  unfold dict_contains in Hc.
  destruct (dict_get "SGI" props) as [v|] eqn:Hv; simpl; [|done].
  intros [= <-].
  rewrite (process_feature_with_sgi _ (dict_set "sgi-id" v props) v).
  - by rewrite !dict_set_twice.
  - apply dict_get_set_eq.
  - by rewrite dict_get_set_ne.
Qed.

(** *** Lists of features *)

Lemma mapM_lookup {A B} (f : A → result B) xs ys i x :
  mapM f xs = Ok ys → xs !! i = Some x → ∃ y, ys !! i = Some y ∧ f x = Ok y.
Proof.
  revert ys i. induction xs as [|a xs IH]; intros ys i; simpl; [done|].
  destruct (f a) as [b|] eqn:Hb; [|done].
  destruct (mapM f xs) as [bs|] eqn:Hbs; [|done].
  intros [= <-]. destruct i as [|i]; simpl.
  - intros [= ->]. eauto.
  - intros Hi. by apply IH.
Qed.

Lemma mapM_length {A B} (f : A → result B) xs ys :
  mapM f xs = Ok ys → length ys = length xs.
Proof.
  revert ys. induction xs as [|a xs IH]; intros ys; simpl.
  - by intros [= <-].
  - destruct (f a); [|done]. destruct (mapM f xs); [|done].
    intros [= <-]. simpl. by rewrite IH.
Qed.

Lemma mapM_idem {A} (f : A → result A) xs ys :
  (∀ x y, f x = Ok y → f y = Ok y) →
  mapM f xs = Ok ys → mapM f ys = Ok ys.
Proof.
  intros Hf. revert ys. induction xs as [|a xs IH]; intros ys; simpl.
  - by intros [= <-].
  - destruct (f a) as [b|] eqn:Hb; [|done].
    destruct (mapM f xs) as [bs|] eqn:Hbs; [|done].
    intros [= <-]. simpl. by rewrite (Hf _ _ Hb), (IH bs).
Qed.

(** *** One document *)

(** The features of the processed document are the processed features. *)
Lemma process_data_features data data' :
  process_data data = Ok data' →
  mapM process_feature (features_of data) = Ok (features_of data').
Proof.
  destruct data as [| | | | | |members]; try done. simpl.
  destruct (dict_get "features" members) as [features|] eqn:Hf.
  - destruct features as [| | | | |features|]; simpl;
      try done;
      try (destruct (mapM process_feature _); simpl; [|done];
           intros [= <-]; simpl; by rewrite Hf).
    destruct (mapM process_feature features) as [features'|]; simpl; [|done].
    intros [= <-]. simpl. by rewrite dict_get_set_eq.
  - intros [= <-]. simpl. by rewrite Hf.
Qed.

Lemma process_data_idem data data' :
  process_data data = Ok data' → process_data data' = Ok data'.
Proof.
  destruct data as [| | | | | |members]; try done. simpl.
  destruct (dict_get "features" members) as [features|] eqn:Hf.
  - destruct features as [| | | | |features|]; simpl;
      try done;
      try (destruct (mapM process_feature _) eqn:Hm; simpl; [|done];
           intros [= <-]; simpl; by rewrite Hf; simpl; rewrite ?Hm).
    destruct (mapM process_feature features) as [features'|] eqn:Hm; simpl; [|done].
    intros [= <-]. simpl. rewrite dict_get_set_eq.
    rewrite (mapM_idem _ _ _ process_feature_idem Hm). simpl.
    by rewrite dict_set_twice.
  - intros [= <-]. simpl. by rewrite Hf.
Qed.

(** *** The loop over the directory *)

Lemma lookup_entry_fresh {A} name (x : A) before rest :
  name ∉ map fst before →
  lookup_entry name (before ++ (name, x) :: rest) = Some x.
Proof.
  induction before as [|[n y] before IH]; simpl; intros Hn.
  - by rewrite String.eqb_refl.
  - apply not_elem_of_cons in Hn as [Hne Hn].
    destruct (String.eqb_spec n name) as [->|_]; [done|]. by apply IH.
Qed.

Lemma store_entry_fresh {A} name (x y : A) before rest :
  name ∉ map fst before →
  store_entry name y (before ++ (name, x) :: rest) = before ++ (name, y) :: rest.
Proof.
  induction before as [|[n z] before IH]; simpl; intros Hn.
  - by rewrite String.eqb_refl.
  - apply not_elem_of_cons in Hn as [Hne Hn].
    destruct (String.eqb_spec n name) as [->|_]; [done|]. by rewrite IH.
Qed.

Lemma lookup_entry_after name x before after :
  Forall2 entry_after before after →
  lookup_entry name before = Some x →
  ∃ x', lookup_entry name after = Some x' ∧ entry_after (name, x) (name, x').
Proof.
  induction 1 as [|[n y] [n' y'] before after [Hn Hy] _ IH]; simpl; [done|].
  simpl in Hn. subst n'.
  destruct (String.eqb_spec n name) as [->|_]; [|done].
  intros [= ->]. exists y'. by split.
Qed.

Section Loop.

Variable DATA_DIR : string.

Let body (filename : string) : M world unit :=
  if endswith filename ".geojson" then process_file DATA_DIR filename else ret tt.

Lemma body_ok_inv name x before rest out w' :
  name ∉ map fst before →
  body name (World (before ++ (name, x) :: rest) out) = (Ok tt, w') →
  ∃ x' out', w' = World (before ++ (name, x') :: rest) out'
             ∧ entry_after (name, x) (name, x').
Proof.
  intros Hfresh. unfold body, entry_after. simpl.
  destruct (endswith name ".geojson").
  - unfold process_file, bind, load, lift, dump, print. simpl.
    rewrite lookup_entry_fresh by done.
    destruct x as [|[data|]]; try done.
    destruct (process_data data) as [data'|] eqn:Hd; [|done].
    simpl. rewrite lookup_entry_fresh by done. simpl.
    destruct (dumpable data') eqn:Hw; [|done].
    rewrite store_entry_fresh by done.
    intros [= <-]. eauto 10.
  - intros [= <-]. eauto.
Qed.

Lemma body_ok_intro name x x' before rest out :
  name ∉ map fst before →
  entry_after (name, x) (name, x') →
  ∃ out', body name (World (before ++ (name, x) :: rest) out)
          = (Ok tt, World (before ++ (name, x') :: rest) out').
Proof.
  intros Hfresh [_ H]. unfold body. simpl in *.
  destruct (endswith name ".geojson").
  - destruct H as (data & data' & -> & Hd & Hw & ->).
    unfold process_file, bind, load, lift, dump, print. simpl.
    rewrite lookup_entry_fresh by done. rewrite Hd. simpl.
    rewrite lookup_entry_fresh by done. simpl. rewrite Hw.
    rewrite store_entry_fresh by done. eauto.
  - subst x'. unfold ret. eauto.
Qed.

Lemma loop_ok_inv rest : ∀ before out w',
  NoDup (map fst (before ++ rest)) →
  for_each (map fst rest) body (World (before ++ rest) out) = (Ok tt, w') →
  ∃ rest', files w' = before ++ rest' ∧ Forall2 entry_after rest rest'.
Proof.
  induction rest as [|[name x] rest IH]; intros before out w' Hnd; simpl.
  - intros [= <-]. exists []. by split.
  - assert (name ∉ map fst before) as Hfresh.
    { rewrite map_app in Hnd. apply NoDup_app in Hnd as (_ & Hd & _).
      intros Hin. apply (Hd _ Hin). simpl. apply elem_of_cons. by left. }
    unfold bind at 1.
    destruct (body name _) as [[[]|e] w1] eqn:Hb; [|done].
    apply body_ok_inv in Hb as (x' & out' & -> & Hx); [|done].
    replace (before ++ (name, x') :: rest) with ((before ++ [(name, x')]) ++ rest)
      by by rewrite <- app_assoc.
    intros Hloop. apply IH in Hloop as (rest' & -> & Hrest).
    + exists ((name, x') :: rest'). split; [by rewrite <- app_assoc|].
      by constructor.
    + rewrite <- app_assoc. simpl.
      rewrite map_app in Hnd |- *. exact Hnd.
Qed.

Lemma loop_ok_intro rest : ∀ rest' before out,
  NoDup (map fst (before ++ rest)) →
  Forall2 entry_after rest rest' →
  ∃ out', for_each (map fst rest) body (World (before ++ rest) out)
          = (Ok tt, World (before ++ rest') out').
Proof.
  induction rest as [|[name x] rest IH]; intros rest' before out Hnd Hall;
    inversion Hall as [|? [name' x'] ? rest1 Hx Hrest]; subst; simpl.
  - unfold ret. eauto.
  - assert (name' = name) as -> by apply Hx.
    assert (name ∉ map fst before) as Hfresh.
    { rewrite map_app in Hnd. apply NoDup_app in Hnd as (_ & Hd & _).
      intros Hin. apply (Hd _ Hin). simpl. apply elem_of_cons. by left. }
    destruct (body_ok_intro name x x' before rest out Hfresh Hx) as [out1 Hb].
    unfold bind at 1. rewrite Hb.
    replace (before ++ (name, x') :: rest) with ((before ++ [(name, x')]) ++ rest)
      by by rewrite <- app_assoc.
    destruct (IH rest1 (before ++ [(name, x')]) out1) as [out' ->]; [|done|].
    + rewrite <- app_assoc. simpl. rewrite map_app in Hnd |- *. exact Hnd.
    + rewrite <- app_assoc. eauto.
Qed.

(** A run without an exception leaves every entry as [entry_after] says. *)
Lemma main_ok_inv w w' :
  NoDup (map fst (files w)) →
  main DATA_DIR w = (Ok tt, w') →
  Forall2 entry_after (files w) (files w').
Proof.
  intros Hnd Hmain. destruct w as [entries out].
  unfold main, bind, listdir in Hmain. simpl in *.
  apply (loop_ok_inv entries [] out w' Hnd) in Hmain as (rest' & -> & H). done.
Qed.

(** And a directory that can be left that way is left that way. *)
Lemma main_ok_intro w entries' :
  NoDup (map fst (files w)) →
  Forall2 entry_after (files w) entries' →
  ∃ out', main DATA_DIR w = (Ok tt, World entries' out').
Proof.
  intros Hnd Hall. destruct w as [entries out].
  unfold main, bind, listdir. simpl in *.
  apply (loop_ok_intro entries entries' [] out Hnd Hall).
Qed.

End Loop.

Lemma entry_after_fixed before after :
  entry_after before after → entry_after after after.
Proof.
  destruct before as [n x], after as [n' x']. unfold entry_after. simpl.
  intros [-> H]. split; [done|].
  destruct (endswith n ".geojson"); [|done].
  destruct H as (data & data' & -> & Hd & Hw & ->).
  exists data', data'. eauto using process_data_idem.
Qed.

Lemma entries_after_fixed before after :
  Forall2 entry_after before after → Forall2 entry_after after after.
Proof.
  induction 1; constructor; eauto using entry_after_fixed.
Qed.

Lemma entries_after_names before after :
  Forall2 entry_after before after → map fst after = map fst before.
Proof.
  induction 1 as [|? ? ? ? [H _] _ IH]; simpl; [done|]. by rewrite H, IH.
Qed.

Lemma properties_of_inv feature props :
  properties_of feature = Some props →
  ∃ members, feature = JDict members
             ∧ dict_get "properties" members = Some (JDict props).
Proof.
  destruct feature as [| | | | | |members]; try done. simpl.
  destruct (dict_get "properties" members) as [[]|] eqn:Hp; try done.
  intros [= ->]. eauto.
Qed.

(** The loop body on a feature that has the source key. *)
Lemma process_feature_copies feature props v :
  properties_of feature = Some props →
  dict_get "SGI" props = Some v →
  ∃ feature' props',
    process_feature feature = Ok feature'
    ∧ properties_of feature' = Some props'
    ∧ dict_get "sgi-id" props' = Some v
    ∧ dict_get "SGI" props' = Some v.
Proof.
  intros (members & -> & Hp)%properties_of_inv Hv.
  eexists _, (dict_set "sgi-id" v props).
  split; [by apply process_feature_with_sgi|].
  split; [simpl; by rewrite dict_get_set_eq|].
  split; [apply dict_get_set_eq|by rewrite dict_get_set_ne].
Qed.

(** A feature whose [properties] member is [null], as GeoJSON allows, is
    outside the data model of well-formed feature collections: the
    membership test raises. *)
Example null_properties_raise :
  process_feature (JDict [("type", JStr "Feature"); ("properties", JNull)])
  = Raise (Exn TypeError "argument of type 'NoneType' is not iterable").
Proof. reflexivity. Qed.

(** What a run without an exception has done to a document of the
    directory: its features are the loop body's results, one by one. *)
Lemma main_ok_document DATA_DIR w w' filename data :
  NoDup (map fst (files w)) →
  main DATA_DIR w = (Ok tt, w') →
  endswith filename ".geojson" = true →
  lookup_entry filename (files w) = Some (File (Some data)) →
  ∃ data', lookup_entry filename (files w') = Some (File (Some data'))
           ∧ mapM process_feature (features_of data) = Ok (features_of data').
Proof.
  intros Hnd Hmain Hext Hfile.
  apply main_ok_inv in Hmain; [|done].
  destruct (lookup_entry_after _ _ _ _ Hmain Hfile) as (x' & Hx' & _ & Hafter).
  simpl in Hafter. rewrite Hext in Hafter.
  destruct Hafter as (d & d' & [= <-] & Hd & _ & ->).
  exists d'. split; [done|]. by apply process_data_features.
Qed.

(** C1, at the scenario of the specification: the run writes no
    [updated_glacier_A.geojson]; it stores the processed document under the
    name it read, so the directory has the same names as before and
    [glacier_A.geojson] no longer holds what it held. *)
Theorem original_overwritten :
  ∃ w', main "/repo/data" data_dir = (Ok tt, w')
        ∧ lookup_entry "updated_glacier_A.geojson" (files w') = None
        ∧ map fst (files w') = map fst (files data_dir)
        ∧ lookup_entry "glacier_A.geojson" (files data_dir) = Some (File (Some glacier_A))
        ∧ lookup_entry "glacier_A.geojson" (files w') ≠ Some (File (Some glacier_A)).
Proof.
  eexists. split; [vm_compute; reflexivity|].
  repeat split; try reflexivity. vm_compute. discriminate.
Qed.

(** C2: after a run that reached its end, in every feature collection of
    the directory every feature that had the key [SGI] in its property
    mapping has [sgi-id] equal to the value [SGI] had, with [SGI] still
    holding it. *)
Theorem sgi_copied DATA_DIR w w' filename data i feature props v :
  NoDup (map fst (files w)) →
  main DATA_DIR w = (Ok tt, w') →
  endswith filename ".geojson" = true →
  lookup_entry filename (files w) = Some (File (Some data)) →
  features_of data !! i = Some feature →
  properties_of feature = Some props →
  dict_get "SGI" props = Some v →
  ∃ data' feature' props',
    lookup_entry filename (files w') = Some (File (Some data'))
    ∧ features_of data' !! i = Some feature'
    ∧ properties_of feature' = Some props'
    ∧ dict_get "sgi-id" props' = Some v
    ∧ dict_get "SGI" props' = Some v.
Proof.
  intros Hnd Hmain Hext Hfile Hi Hp Hv.
  destruct (main_ok_document _ _ _ _ _ Hnd Hmain Hext Hfile) as (data' & Hfile' & Hm).
  destruct (mapM_lookup _ _ _ _ _ Hm Hi) as (feature' & Hi' & Hf).
  destruct (process_feature_copies _ _ _ Hp Hv) as (f2 & props' & Hf2 & H).
  rewrite Hf in Hf2. injection Hf2 as <-.
  exists data', feature', props'. eauto.
Qed.

Lemma sgi_copied_witness :
  NoDup (map fst (files data_dir))
  ∧ (∃ w', main "/repo/data" data_dir = (Ok tt, w'))
  ∧ ∃ data' feature' props',
      lookup_entry "glacier_A.geojson" (files (snd (main "/repo/data" data_dir)))
      = Some (File (Some data'))
      ∧ features_of data' !! 0%nat = Some feature'
      ∧ properties_of feature' = Some props'
      ∧ dict_get "sgi-id" props' = Some (JStr "B36-26")
      ∧ dict_get "SGI" props' = Some (JStr "B36-26").
Proof.
  assert (NoDup (map fst (files data_dir))) as Hnd
    by (apply (bool_decide_unpack _); vm_compute; reflexivity).
  split; [exact Hnd|]. split; [by eexists|].
  exact (sgi_copied "/repo/data" data_dir (snd (main "/repo/data" data_dir))
           "glacier_A.geojson" glacier_A 0%nat glacier_feature
           [("SGI", JStr "B36-26"); ("name", JStr "Aletsch")] (JStr "B36-26")
           Hnd eq_refl eq_refl eq_refl eq_refl eq_refl eq_refl).
Defined.

(** C9: after a run that reached its end, in every feature collection of
    the directory every feature whose property mapping lacked the key [SGI]
    is the feature it was, property mapping included: no key was added,
    removed or altered. *)
Theorem features_without_sgi_untouched DATA_DIR w w' filename data i feature props :
  NoDup (map fst (files w)) →
  main DATA_DIR w = (Ok tt, w') →
  endswith filename ".geojson" = true →
  lookup_entry filename (files w) = Some (File (Some data)) →
  features_of data !! i = Some feature →
  properties_of feature = Some props →
  dict_get "SGI" props = None →
  ∃ data' feature',
    lookup_entry filename (files w') = Some (File (Some data'))
    ∧ features_of data' !! i = Some feature'
    ∧ properties_of feature' = Some props
    ∧ feature' = feature.
Proof.
  intros Hnd Hmain Hext Hfile Hi Hp Hv.
  destruct (main_ok_document _ _ _ _ _ Hnd Hmain Hext Hfile) as (data' & Hfile' & Hm).
  destruct (mapM_lookup _ _ _ _ _ Hm Hi) as (feature' & Hi' & Hf).
  rewrite (process_feature_without_sgi _ _ Hp Hv) in Hf. injection Hf as <-.
  exists data', feature. eauto.
Qed.

Lemma features_without_sgi_untouched_witness :
  NoDup (map fst (files data_dir))
  ∧ (∃ w', main "/repo/data" data_dir = (Ok tt, w'))
  ∧ ∃ data' feature',
      lookup_entry "glacier_A.geojson" (files (snd (main "/repo/data" data_dir)))
      = Some (File (Some data'))
      ∧ features_of data' !! 1%nat = Some feature'
      ∧ properties_of feature' = Some [("name", JStr "lac")]
      ∧ feature' = lake_feature.
Proof.
  assert (NoDup (map fst (files data_dir))) as Hnd
    by (apply (bool_decide_unpack _); vm_compute; reflexivity).
  split; [exact Hnd|]. split; [by eexists|].
  exact (features_without_sgi_untouched "/repo/data" data_dir
           (snd (main "/repo/data" data_dir))
           "glacier_A.geojson" glacier_A 1%nat lake_feature [("name", JStr "lac")]
           Hnd eq_refl eq_refl eq_refl eq_refl eq_refl eq_refl).
Defined.

(** C8: a second run over what a first run that reached its end left
    behind also reaches its end, and leaves every file holding what the
    first run wrote. *)
Theorem second_run_same_output DATA_DIR w w1 :
  NoDup (map fst (files w)) →
  main DATA_DIR w = (Ok tt, w1) →
  ∃ w2, main DATA_DIR w1 = (Ok tt, w2) ∧ files w2 = files w1.
Proof.
  intros Hnd Hmain. apply main_ok_inv in Hmain; [|done].
  destruct (main_ok_intro DATA_DIR w1 (files w1)) as [out' H].
  - by rewrite (entries_after_names _ _ Hmain).
  - by apply entries_after_fixed with (files w).
  - eauto.
Qed.

Lemma second_run_same_output_witness :
  NoDup (map fst (files data_dir))
  ∧ (∃ w1, main "/repo/data" data_dir = (Ok tt, w1))
  ∧ ∃ w2, main "/repo/data" (snd (main "/repo/data" data_dir)) = (Ok tt, w2)
          ∧ files w2 = files (snd (main "/repo/data" data_dir)).
Proof.
  assert (NoDup (map fst (files data_dir))) as Hnd
    by (apply (bool_decide_unpack _); vm_compute; reflexivity).
  split; [exact Hnd|]. split; [by eexists|].
  exact (second_run_same_output "/repo/data" data_dir
           (snd (main "/repo/data" data_dir)) Hnd eq_refl).
Defined.

End CopierFacts.

(** ** Properties of the Tile Builder Invoker *)

Module TileBuilderFacts.
Import Py TileBuilder.

Section Facts.

Variable Tool : Type.
Variable tippecanoe : list string → Tool → run_outcome * Tool.
Variable CalledProcessError_str : list string → Z → string.

Variable tippecanoe_path : string.
Variable zoom_levels : Z * Z.

(** Whatever status the tool exits with, the loop body returns: a failure
    is caught and reported, and the next iteration can start. *)
Lemma convert_one_exited current_directory filename returncode tool' w :
  tippecanoe (command_of tippecanoe_path zoom_levels current_directory filename) (tool w)
  = (Exited returncode, tool') →
  convert_one Tool tippecanoe CalledProcessError_str tippecanoe_path zoom_levels current_directory filename w
  = (Ok tt,
     World (cwd w) (entries w) tool'
           (trace w ++ file_events CalledProcessError_str tippecanoe_path zoom_levels
                                   current_directory filename returncode)).
Proof.
  intros Hrun.
  unfold convert_one, file_events.
  unfold bind, try_except, subprocess_run_check, print, emit. simpl.
  rewrite Hrun.
  destruct returncode; simpl; by rewrite <- !app_assoc.
Qed.

Lemma loop_runs_every_file current_directory names : ∀ w returncodes,
  outcomes_of tippecanoe
    (map (command_of tippecanoe_path zoom_levels current_directory)
         (filter (λ f, is_geojson f = true) names))
    (tool w)
  = map Exited returncodes →
  ∃ w',
    for_each names (λ filename,
      if endswith filename ".geojson"
      then convert_one Tool tippecanoe CalledProcessError_str tippecanoe_path zoom_levels current_directory filename
      else ret tt) w = (Ok tt, w')
    ∧ trace w' = trace w ++
        concat (zip_with (file_events CalledProcessError_str tippecanoe_path zoom_levels current_directory)
                         (filter (λ f, is_geojson f = true) names) returncodes).
Proof.
  induction names as [|filename names IH]; intros w returncodes; simpl.
  - intros _. exists w. by rewrite app_nil_r.
  - rewrite filter_cons.
    destruct (decide (is_geojson filename = true)) as [Hext|Hext];
      unfold is_geojson in Hext.
    + rewrite Hext. simpl.
      destruct (tippecanoe _ (tool w)) as [outcome tool'] eqn:Hrun.
      destruct returncodes as [|returncode returncodes]; [done|].
      simpl. intros [= -> Hrest].
      unfold bind at 1. rewrite (convert_one_exited _ _ _ _ _ Hrun).
      destruct (IH (World (cwd w) (entries w) tool'
                      (trace w ++ file_events CalledProcessError_str tippecanoe_path zoom_levels
                                              current_directory filename returncode))
                   returncodes Hrest)
        as (w' & -> & Htrace).
      exists w'. split; [done|].
      rewrite Htrace. simpl. by rewrite <- app_assoc.
    + apply not_true_is_false in Hext. rewrite Hext.
      unfold bind at 1. simpl. apply IH.
Qed.

End Facts.

(** C7: when the tool, started on the command of each [.geojson] name of the
    listing in turn, ends every time with an exit status, zero or not, the
    run reaches its end, and its trace is, for each of these names in turn,
    the announcement, the invocation with the status the tool gave, and then
    the success line when that status is zero and the line
    [Error converting <name>: <error>] when it is not: a failed invocation is
    caught and logged with the file's name and the error, and the next file
    follows. *)
Theorem failed_invocation_does_not_stop_batch
    (Tool : Type) (tippecanoe : list string → Tool → run_outcome * Tool)
    (CalledProcessError_str : list string → Z → string)
    (tippecanoe_path : string) (zoom_levels : Z * Z) (w : world Tool)
    (returncodes : list Z) :
  outcomes_of tippecanoe
    (map (command_of tippecanoe_path zoom_levels (cwd w))
         (filter (λ f, is_geojson f = true) (entries w)))
    (tool w)
  = map Exited returncodes →
  ∃ w',
    convert_geojson_to_mbtiles Tool tippecanoe CalledProcessError_str
                               tippecanoe_path zoom_levels w = (Ok tt, w')
    ∧ trace w' = trace w ++
        concat (zip_with (file_events CalledProcessError_str tippecanoe_path zoom_levels (cwd w))
                         (filter (λ f, is_geojson f = true) (entries w)) returncodes).
Proof.
  intros Houtcomes.
  unfold convert_geojson_to_mbtiles, bind at 1 2, getcwd, listdir. simpl.
  by apply loop_runs_every_file.
Qed.

Lemma failed_invocation_does_not_stop_batch_witness :
  outcomes_of flaky_tool
    (map (command_of "tippecanoe" (6, 14) (cwd two_files))
         (filter (λ f, is_geojson f = true) (entries two_files)))
    (tool two_files)
  = map Exited [1; 0]
  ∧ ∃ w',
      main nat flaky_tool short_error_str two_files = (Ok tt, w')
      ∧ trace w'
        = [ Printed "Converting a.geojson to a.mbtiles...";
            Ran ["tippecanoe"; "-o"; "/maps/a.mbtiles"; "-z"; "14"; "-Z"; "6";
                 "--generate-ids"; "-f"; "/maps/a.geojson"] (Exited 1);
            Printed "Error converting a.geojson: Command returned non-zero exit status 1.";
            Printed "Converting b.geojson to b.mbtiles...";
            Ran ["tippecanoe"; "-o"; "/maps/b.mbtiles"; "-z"; "14"; "-Z"; "6";
                 "--generate-ids"; "-f"; "/maps/b.geojson"] (Exited 0);
            Printed "Successfully created b.mbtiles" ].
Proof.
  split; [reflexivity|].
  exact (failed_invocation_does_not_stop_batch nat flaky_tool short_error_str
           "tippecanoe" (6, 14) two_files [1; 0] eq_refl).
Defined.

(** The run of the example: the first file fails and is reported, the
    second is still converted. *)
Example two_files_trace :
  main nat flaky_tool short_error_str two_files
  = (Ok tt,
     World "/maps" ["a.geojson"; "README.md"; "b.geojson"] 2%nat
       [ Printed "Converting a.geojson to a.mbtiles...";
         Ran ["tippecanoe"; "-o"; "/maps/a.mbtiles"; "-z"; "14"; "-Z"; "6";
              "--generate-ids"; "-f"; "/maps/a.geojson"] (Exited 1);
         Printed "Error converting a.geojson: Command returned non-zero exit status 1.";
         Printed "Converting b.geojson to b.mbtiles...";
         Ran ["tippecanoe"; "-o"; "/maps/b.mbtiles"; "-z"; "14"; "-Z"; "6";
              "--generate-ids"; "-f"; "/maps/b.geojson"] (Exited 0);
         Printed "Successfully created b.mbtiles" ]).
Proof. vm_compute. reflexivity. Qed.

(** An exception of another class, as when the tool is not installed and
    cannot be started, is not matched by the except clause. *)
Example tool_not_found_is_not_caught :
  fst (main unit (λ _ t, (NotStarted (Exn OSError "No such file or directory: 'tippecanoe'"), t))
            short_error_str (World "/maps" ["a.geojson"; "b.geojson"] tt []))
  = Raise (Exn OSError "No such file or directory: 'tippecanoe'").
Proof. reflexivity. Qed.

End TileBuilderFacts.

(** ** Properties of the Archive Exploder *)

Module ExploderFacts.
Import Py Exploder.

(** *** Zoom resolution *)

(** An exception of the metadata lookup that the except clause matches
    ends in [(None, None)] and one printed line. *)
Lemma get_zoom_levels_caught file db e w :
  lookup_entry file (cwd w) = Some (File db) →
  lookup_raises db = Some e →
  caught_by_get_zoom_levels e = true →
  get_zoom_levels file w
  = (Ok (ZNone, ZNone),
     World (cwd w) (trace w ++ [Printed (zoom_level_error_line e file)])).
Proof.
  intros Hfile Hraises Hcaught.
  unfold get_zoom_levels, bind at 1, sqlite3_connect. rewrite Hfile.
  destruct db as [|minq maxq]; [done|].
  unfold try_except, bind, handle_zoom_level_error, bind, print, ret. simpl.
  destruct minq as [e1| |v1]; simpl in *.
  - injection Hraises as ->. by rewrite Hcaught.
  - destruct maxq as [e2| |v2]; try done; simpl.
    injection Hraises as ->. by rewrite Hcaught.
  - destruct maxq as [e2| |v2]; try done; simpl.
    injection Hraises as ->. by rewrite Hcaught.
Qed.

(** The line printed for a matched exception is never the catch-all one. *)
Lemma caught_error_is_classified e file :
  caught_by_get_zoom_levels e = true →
  zoom_level_error_line e file
  ≠ "Unexpected error reading zoom levels from " +:+ file +:+ ": " +:+ exn_str e.
Proof.
  destruct e as [cls msg]. unfold caught_by_get_zoom_levels, zoom_level_error_line.
  destruct cls; simpl; done.
Qed.

(** No row for either key: the default pair and a warning. *)
Lemma get_zoom_levels_no_rows file w :
  lookup_entry file (cwd w) = Some (File (Database QNoRow QNoRow)) →
  get_zoom_levels file w
  = (Ok (ZInt 1, ZInt 12),
     World (cwd w)
       (trace w ++ [Printed ("Warning: No zoom levels found in metadata for "
                             +:+ file +:+ ". Skipping file.")])).
Proof.
  intros Hfile. unfold get_zoom_levels, bind at 1, sqlite3_connect. by rewrite Hfile.
Qed.

(** *** What the script leaves in place *)

Lemma lookup_entry_app_l name x d extra :
  lookup_entry name d = Some x → lookup_entry name (d ++ extra) = Some x.
Proof.
  induction d as [|[n y] d IH]; simpl; [done|].
  destruct (String.eqb n name); eauto.
Qed.

Section Preservation.

Variable I : world → Prop.

Lemma preserves_ret {A} (a : A) : preserves I (ret a).
Proof. by intros w Hw. Qed.

Lemma preserves_raise {A} (e : exn) : preserves I (raise (A := A) e).
Proof. by intros w Hw. Qed.

Lemma preserves_bind {A B} (c : M world A) (k : A → M world B) :
  preserves I c → (∀ a, preserves I (k a)) → preserves I (bind c k).
Proof.
  intros Hc Hk w Hw. unfold bind. specialize (Hc w Hw).
  destruct (c w) as [[a|e] w1]; simpl in *; [by apply Hk|done].
Qed.

Lemma preserves_try_except {A} (c : M world A) caught handler :
  preserves I c → (∀ e, preserves I (handler e)) →
  preserves I (try_except c caught handler).
Proof.
  intros Hc Hh w Hw. unfold try_except. specialize (Hc w Hw).
  destruct (c w) as [[a|e] w1]; simpl in *; [done|].
  destruct (caught e); [by apply Hh|done].
Qed.

Lemma preserves_for_each {A} (xs : list A) (body : A → M world unit) :
  (∀ x, preserves I (body x)) → preserves I (for_each xs body).
Proof.
  intros Hbody. induction xs as [|x xs IH]; simpl.
  - apply preserves_ret.
  - apply preserves_bind; [apply Hbody|]. intros _. apply IH.
Qed.

End Preservation.

Section Kept.

Variable shell : string → directory → Z * directory.

(** The entry under watch and what it holds. *)
Variable kept : string.
Variable held : node.

Hypothesis shell_keeps : ∀ command d,
  lookup_entry kept d = Some held →
  lookup_entry kept (snd (shell command d)) = Some held.

Let still_there (w : world) : Prop := lookup_entry kept (cwd w) = Some held.

Lemma print_keeps line : preserves still_there (print line).
Proof. by intros w Hw. Qed.

Lemma fetchone_keeps q : preserves still_there (fetchone q).
Proof. destruct q; by intros w Hw. Qed.

Lemma sqlite3_connect_keeps filename : preserves still_there (sqlite3_connect filename).
Proof.
  intros w Hw. unfold sqlite3_connect.
  destruct (lookup_entry filename (cwd w)) as [[|[]]|]; try done.
  simpl. by apply lookup_entry_app_l.
Qed.

Lemma get_zoom_levels_keeps filename : preserves still_there (get_zoom_levels filename).
Proof.
  unfold get_zoom_levels.
  apply preserves_bind; [apply sqlite3_connect_keeps|]. intros conn.
  apply preserves_try_except.
  - apply preserves_bind; [apply fetchone_keeps|]. intros minzoom_result.
    apply preserves_bind; [apply fetchone_keeps|]. intros maxzoom_result.
    destruct minzoom_result, maxzoom_result;
      try apply preserves_ret;
      (apply preserves_bind; [apply print_keeps|]; intros _; apply preserves_ret).
  - intros e. unfold handle_zoom_level_error.
    apply preserves_bind; [apply print_keeps|]. intros _. apply preserves_ret.
Qed.

Lemma os_system_keeps command embedded_null :
  preserves still_there (os_system shell command embedded_null).
Proof.
  intros w Hw. unfold os_system. destruct embedded_null; [done|].
  pose proof (shell_keeps command (cwd w) Hw) as H.
  by destruct (shell command (cwd w)).
Qed.

Lemma process_archive_keeps file : preserves still_there (process_archive shell file).
Proof.
  unfold process_archive.
  apply preserves_bind; [by intros w Hw|]. intros [].
  - apply print_keeps.
  - apply preserves_bind; [apply get_zoom_levels_keeps|]. intros zooms.
    destruct (is_none (fst zooms) || is_none (snd zooms)).
    + apply print_keeps.
    + apply preserves_bind; [apply print_keeps|]. intros _.
      apply preserves_bind; [apply os_system_keeps|]. intros _.
      apply preserves_ret.
Qed.

Lemma main_keeps : preserves still_there (main shell).
Proof.
  unfold main.
  apply preserves_bind; [apply print_keeps|]. intros _.
  apply preserves_bind; [by intros w Hw|]. intros listing.
  apply preserves_bind; [apply print_keeps|]. intros _.
  apply preserves_bind; [by intros w Hw|]. intros listing'.
  apply preserves_for_each. intros file.
  destruct (is_mbtiles file); [apply process_archive_keeps|apply preserves_ret].
Qed.

End Kept.

(** C3, at a directory whose first archive cannot be opened: the exception
    of [sqlite3.connect] is raised before the [try] of [get_zoom_levels],
    nothing catches it, and the run ends there, whatever the shell would
    have done: the second archive is never looked at and no command is
    run.  Alone in its directory the second archive is converted. *)
Theorem connect_error_stops_batch (shell : string → directory → Z * directory) :
  main shell (World locked_dir [])
  = (Raise permission_denied,
     World locked_dir
       [ Printed "Requires Python 3! Use python3 from the command line if needed.";
         Printed ("2 mbtiles file(s) found" +:+ NEW_LINE) ])
  ∧ commands_run (trace (snd (main shell (World locked_dir [])))) = []
  ∧ commands_run (trace (snd (main shell
                                 (World [("b.mbtiles", File good_archive)] []))))
    = [ "ogr2ogr -f MVT b b.mbtiles -dsco MINZOOM=3 -dsco MAXZOOM=10 -dsco COMPRESS=NO -dsco FORMAT=DIRECTORY" ].
Proof.
  split; [vm_compute; reflexivity|]. split; [vm_compute; reflexivity|].
  vm_compute.
  match goal with |- context [shell ?c ?d] => destruct (shell c d) end.
  reflexivity.
Qed.

(** C4: when the metadata lookup of an archive raises (the first SELECT,
    or the second after the first answered) an exception of one of the
    driver's classes, a ValueError or an OSError, the zoom levels come back
    as [(None, None)], never the default pair, and one line is printed that
    tells the kind of error, the file and the error's text, as written out
    below for each class; the loop body then prints the skip line and
    returns, and no command is run.  An exception of another class has no
    such line: it is not caught. *)
Theorem lookup_error_skips_file
    (shell : string → directory → Z * directory) file minq maxq cls msg label w :
  exists_in (cwd w) (newDirName_of file) = false →
  lookup_entry file (cwd w) = Some (File (Database minq maxq)) →
  minq = QRaise (Exn cls msg)
  ∨ ((minq = QNoRow ∨ ∃ value, minq = QRow value) ∧ maxq = QRaise (Exn cls msg)) →
  match cls with
  | OperationalError => Some "SQLite operational error reading zoom levels from "
  | DatabaseError => Some "SQLite database error reading zoom levels from "
  | SqliteError => Some "General SQLite error reading zoom levels from "
  | ValueError | JSONDecodeError | UnicodeEncodeError =>
      Some "Value error processing zoom levels from "
  | OSError => Some "OS error accessing "
  | CalledProcessError | TypeError | AttributeError | KeyError | OtherError => None
  end = Some label →
  let line := label +:+ file +:+ ": " +:+ msg in
  fst (get_zoom_levels file w) = Ok (ZNone, ZNone)
  ∧ trace (snd (get_zoom_levels file w)) = trace w ++ [Printed line]
  ∧ fst (process_archive shell file w) = Ok tt
  ∧ trace (snd (process_archive shell file w))
    = trace w ++ [ Printed line;
                   Printed ("Skipping " +:+ file +:+ " due to missing zoom levels.") ].
Proof.
  intros Hfree Hfile Hraises Hlabel line.
  assert (lookup_raises (Database minq maxq) = Some (Exn cls msg)) as Hlookup.
  { destruct Hraises as [->|[[->|[value ->]] ->]]; reflexivity. }
  assert (caught_by_get_zoom_levels (Exn cls msg) = true
          ∧ zoom_level_error_line (Exn cls msg) file = line) as [Hcaught Hline].
  { destruct cls; simpl in Hlabel; try discriminate;
      injection Hlabel as <-; split; reflexivity. }
  pose proof (get_zoom_levels_caught _ _ _ _ Hfile Hlookup Hcaught) as Hzoom.
  rewrite Hline in Hzoom.
  split; [by rewrite Hzoom|]. split; [by rewrite Hzoom|].
  assert (process_archive shell file w
          = (Ok tt,
             World (cwd w)
               (trace w ++ [ Printed line;
                             Printed ("Skipping " +:+ file
                                      +:+ " due to missing zoom levels.") ]))) as ->.
  { unfold process_archive, bind at 1, path_exists. rewrite Hfree.
    unfold bind at 1. rewrite Hzoom. simpl.
    unfold print. simpl. by rewrite <- app_assoc. }
  by split.
Qed.

Lemma lookup_error_skips_file_witness :
  exists_in corrupt_dir (newDirName_of "c.mbtiles") = false
  ∧ fst (get_zoom_levels "c.mbtiles" (World corrupt_dir [])) = Ok (ZNone, ZNone)
  ∧ trace (snd (process_archive mkdir_shell "c.mbtiles" (World corrupt_dir [])))
    = [ Printed "SQLite database error reading zoom levels from c.mbtiles: file is not a database";
        Printed "Skipping c.mbtiles due to missing zoom levels." ].
Proof.
  split; [reflexivity|].
  destruct (lookup_error_skips_file mkdir_shell "c.mbtiles"
              (QRaise not_a_database) (QRaise not_a_database)
              DatabaseError "file is not a database"
              "SQLite database error reading zoom levels from "
              (World corrupt_dir [])
              eq_refl eq_refl (or_introl eq_refl) eq_refl)
    as (Hzoom & _ & _ & Hbody).
  split; [exact Hzoom|exact Hbody].
Defined.

(** C5: an archive that opens and has neither a [minzoom] nor a [maxzoom]
    row resolves to the pair (1, 12), and the loop body goes on to run the
    conversion command with MINZOOM=1 and MAXZOOM=12. *)
Theorem missing_rows_use_default_zoom
    (shell : string → directory → Z * directory) file w :
  exists_in (cwd w) (newDirName_of file) = false →
  lookup_entry file (cwd w) = Some (File (Database QNoRow QNoRow)) →
  let warning := "Warning: No zoom levels found in metadata for "
                 +:+ file +:+ ". Skipping file." in
  let command := "ogr2ogr -f MVT " +:+ newDirName_of file +:+ " " +:+ file
                 +:+ " -dsco MINZOOM=1 -dsco MAXZOOM=12 -dsco COMPRESS=NO -dsco FORMAT=DIRECTORY" in
  get_zoom_levels file w
  = (Ok (ZInt 1, ZInt 12), World (cwd w) (trace w ++ [Printed warning]))
  ∧ process_archive shell file w
    = (Ok tt,
       World (snd (shell command (cwd w)))
         (trace w ++ [ Printed warning;
                       Printed ("Running " +:+ command);
                       Ran command (fst (shell command (cwd w))) ])).
Proof.
  intros Hfree Hfile warning command.
  pose proof (get_zoom_levels_no_rows _ _ Hfile) as Hzoom.
  split; [done|].
  unfold process_archive, bind at 1, path_exists. rewrite Hfree.
  unfold bind at 1. rewrite Hzoom. simpl.
  assert (COMMAND_of (newDirName_of file) file (ZInt 1) (ZInt 12) = command) as ->.
  { unfold COMMAND_of, command. vm_compute. reflexivity. }
  unfold bind, print, os_system. simpl.
  destruct (shell command (cwd w)) as [status cwd']. simpl.
  by rewrite <- !app_assoc.
Qed.

Lemma missing_rows_use_default_zoom_witness :
  exists_in scenario_dir (newDirName_of "x.mbtiles") = false
  ∧ get_zoom_levels "x.mbtiles" (World scenario_dir [])
    = (Ok (ZInt 1, ZInt 12),
       World scenario_dir
         [Printed "Warning: No zoom levels found in metadata for x.mbtiles. Skipping file."])
  ∧ commands_run (trace (snd (process_archive mkdir_shell "x.mbtiles"
                                (World scenario_dir []))))
    = [ "ogr2ogr -f MVT x x.mbtiles -dsco MINZOOM=1 -dsco MAXZOOM=12 -dsco COMPRESS=NO -dsco FORMAT=DIRECTORY" ].
Proof.
  split; [reflexivity|].
  destruct (missing_rows_use_default_zoom mkdir_shell "x.mbtiles" (World scenario_dir [])
              eq_refl eq_refl) as [Hzoom Hbody].
  split; [exact Hzoom|]. rewrite Hbody. reflexivity.
Defined.

(** C6: when the name derived from the archive (its base name up to the
    first dot) exists in the working directory, the loop body prints the
    collision line and returns: no command is run and the directory, the
    existing entry included, is as it was. *)
Theorem existing_directory_is_skipped
    (shell : string → directory → Z * directory) file w :
  exists_in (cwd w) (newDirName_of file) = true →
  process_archive shell file w
  = (Ok tt,
     World (cwd w)
       (trace w ++ [Printed ("Error: Directory '" +:+ newDirName_of file
                             +:+ "' already exists. Skipping command.")])).
Proof.
  intros Hexists. unfold process_archive, bind, path_exists. by rewrite Hexists.
Qed.

Lemma existing_directory_is_skipped_witness :
  exists_in scenario_dir (newDirName_of "y.mbtiles") = true
  ∧ process_archive mkdir_shell "y.mbtiles" (World scenario_dir [])
    = (Ok tt,
       World scenario_dir
         [Printed "Error: Directory 'y' already exists. Skipping command."]).
Proof.
  split; [reflexivity|].
  exact (existing_directory_is_skipped mkdir_shell "y.mbtiles" (World scenario_dir [])
           eq_refl).
Defined.

(** C10: the script itself removes nothing.  An entry of the working
    directory that the programs run through the shell leave in place is
    in place, holding what it held, when the run ends, by return or by
    exception: an archive that was converted is still there. *)
Theorem archive_is_never_removed
    (shell : string → directory → Z * directory) file held w :
  (∀ command d, lookup_entry file d = Some held →
                lookup_entry file (snd (shell command d)) = Some held) →
  lookup_entry file (cwd w) = Some held →
  lookup_entry file (cwd (snd (main shell w))) = Some held.
Proof.
  intros Hshell Hfile. by apply (main_keeps shell file held Hshell w).
Qed.

Lemma archive_is_never_removed_witness :
  (∀ command d, lookup_entry "x.mbtiles" d = Some (File (Database QNoRow QNoRow)) →
                lookup_entry "x.mbtiles" (snd (mkdir_shell command d))
                = Some (File (Database QNoRow QNoRow)))
  ∧ commands_run (trace (snd (main mkdir_shell (World scenario_dir []))))
    = [ "ogr2ogr -f MVT x x.mbtiles -dsco MINZOOM=1 -dsco MAXZOOM=12 -dsco COMPRESS=NO -dsco FORMAT=DIRECTORY" ]
  ∧ lookup_entry "x.mbtiles" (cwd (snd (main mkdir_shell (World scenario_dir []))))
    = Some (File (Database QNoRow QNoRow)).
Proof.
  assert (∀ command d,
            lookup_entry "x.mbtiles" d = Some (File (Database QNoRow QNoRow)) →
            lookup_entry "x.mbtiles" (snd (mkdir_shell command d))
            = Some (File (Database QNoRow QNoRow))) as Hshell.
  { intros command d Hd. unfold mkdir_shell.
    destruct (words_from command EmptyString !! 0%nat) as [program|]; [|exact Hd].
    destruct (words_from command EmptyString !! 3%nat) as [out|]; [|exact Hd].
    destruct (String.eqb program "ogr2ogr"); [|exact Hd].
    exact (lookup_entry_app_l _ _ _ _ Hd). }
  split; [exact Hshell|]. split; [reflexivity|].
  exact (archive_is_never_removed mkdir_shell "x.mbtiles" _ (World scenario_dir [])
           Hshell eq_refl).
Defined.

End ExploderFacts.

(** ** Facts about the string functions the scripts use *)

Module PyFacts.
Import Py.

Lemma append_nil t : EmptyString +:+ t = t.
Proof. reflexivity. Qed.

Lemma append_cons a s t : String a s +:+ t = String a (s +:+ t).
Proof. reflexivity. Qed.

Lemma length_append s t :
  String.length (s +:+ t) = (String.length s + String.length t)%nat.
Proof. induction s as [|c s IH]; simpl; [done|]. by rewrite IH. Qed.

Lemma substring_whole t : substring 0 (String.length t) t = t.
Proof. induction t as [|c t IH]; simpl; [done|]. by rewrite IH. Qed.

Lemma substring_skip s t m :
  substring (String.length s) m (s +:+ t) = substring 0 m t.
Proof. induction s as [|c s IH]; simpl; [done|]. exact IH. Qed.

Lemma substring_app_l s t (n m : nat) :
  (n + m ≤ String.length s)%nat → substring n m (s +:+ t) = substring n m s.
Proof.
  revert n m. induction s as [|c s IH]; intros n m; simpl.
  - intros H. assert (n = 0%nat) as -> by lia. assert (m = 0%nat) as -> by lia.
    by destruct t.
  - destruct n as [|n]; [destruct m as [|m]|]; simpl; intros H; [done| |].
    + rewrite (IH 0%nat m); [done|lia].
    + apply IH. lia.
Qed.

Lemma substring_split s (m : nat) :
  (m ≤ String.length s)%nat →
  s = substring 0 m s +:+ substring m (String.length s - m) s.
Proof.
  revert m. induction s as [|c s IH]; intros m; simpl.
  - intros H. by assert (m = 0%nat) as -> by lia.
  - destruct m as [|m]; simpl; intros H.
    + by rewrite substring_whole.
    + transitivity (String c (substring 0 m s +:+ substring m (String.length s - m) s));
        [|reflexivity].
      f_equal. apply IH. lia.
Qed.

(** [s.endswith(suffix)] holds exactly when [s] is some text followed by
    [suffix]. *)
Lemma endswith_iff s suffix :
  endswith s suffix = true ↔ ∃ stem, s = stem +:+ suffix.
Proof.
  unfold endswith. split.
  - intros [Hlen Heq]%andb_prop. apply Nat.leb_le in Hlen.
    apply String.eqb_eq in Heq.
    pose proof (substring_split s (String.length s - String.length suffix)
                  ltac:(lia)) as Hsplit.
    replace (String.length s - (String.length s - String.length suffix))%nat
      with (String.length suffix) in Hsplit by lia.
    rewrite Heq in Hsplit. eauto.
  - intros [stem ->]. rewrite length_append. apply andb_true_intro. split.
    + apply Nat.leb_le. lia.
    + replace (String.length stem + String.length suffix - String.length suffix)%nat
        with (String.length stem) by lia.
      rewrite substring_skip, substring_whole. apply String.eqb_refl.
Qed.

(** X19: the test by which each script picks its files from a listing,
    [name.endswith(suffix)], accepts exactly the names that are some text,
    possibly empty, followed by the suffix. *)
Theorem filter_accepts_suffixed_names name suffix :
  endswith name suffix = true ↔ ∃ stem, name = stem +:+ suffix.
Proof. apply endswith_iff. Qed.

Lemma rfind_from_app c s t i found :
  rfind_from c (s +:+ t) i found
  = rfind_from c t (i + Z.of_nat (String.length s)) (rfind_from c s i found).
Proof.
  revert i found. induction s as [|a s IH]; intros i found.
  - simpl. by rewrite Z.add_0_r.
  - change (String a s +:+ t) with (String a (s +:+ t)). simpl.
    rewrite IH. f_equal. lia.
Qed.

Lemma rfind_from_bounds c s i found :
  0 ≤ i → -1 ≤ found < i →
  -1 ≤ rfind_from c s i found < i + Z.of_nat (String.length s).
Proof.
  revert i found. induction s as [|a s IH]; intros i found Hi Hf; simpl.
  - lia.
  - rewrite Nat2Z.inj_succ. destruct (Ascii.eqb a c).
    + pose proof (IH (i + 1) i). lia.
    + pose proof (IH (i + 1) found). lia.
Qed.

Lemma rfind_bounds c s : -1 ≤ rfind c s < Z.of_nat (String.length s).
Proof. apply (rfind_from_bounds c s 0 (-1)); lia. Qed.

(** [split(sep)[0]] of a text without [sep], followed by [sep] and more, is
    that text. *)
Lemma split_first_app sep stem rest :
  lacks sep stem = true →
  split_first sep (stem +:+ String sep rest) = stem.
Proof.
  induction stem as [|a stem IH].
  - intros _. rewrite ?append_nil. simpl. by rewrite Ascii.eqb_refl.
  - simpl. intros [Ha Hs]%andb_prop. apply negb_true_iff in Ha.
    rewrite ?append_cons. simpl. rewrite Ha. by rewrite IH.
Qed.

Lemma rfind_from_lacks c s i found :
  lacks c s = true → rfind_from c s i found = found.
Proof.
  revert i found. induction s as [|a s IH]; intros i found; simpl; [done|].
  intros [Ha Hs]%andb_prop. apply negb_true_iff in Ha. rewrite Ha. by apply IH.
Qed.

End PyFacts.

(** ** More about the Tile Builder Invoker *)

Module TileBuilderMore.
Import Py PyFacts TileBuilder.

(** X7: the name of the archive written for a listed name: the [.geojson] ending
    is replaced by [.mbtiles], except that a name whose text before the
    ending is empty or made of dots only (a hidden file such as [.geojson])
    has no extension for [os.path.splitext] and keeps its whole name. *)
Theorem output_filename_replaces_extension filename :
  is_geojson filename = true →
  ∃ stem, filename = stem +:+ ".geojson"
          ∧ output_filename_of filename
            = (if all_dots (basename stem) then filename else stem) +:+ ".mbtiles".
Proof.
  intros [stem ->]%endswith_iff. exists stem. split; [done|].
  unfold output_filename_of, splitext_root. f_equal.
  assert (rfind "/" (stem +:+ ".geojson") = rfind "/" stem) as ->.
  { unfold rfind. rewrite rfind_from_app. by apply rfind_from_lacks. }
  assert (rfind "." (stem +:+ ".geojson") = Z.of_nat (String.length stem)) as ->.
  { unfold rfind. rewrite rfind_from_app. reflexivity. }
  pose proof (rfind_bounds "/" stem) as Hsep.
  destruct (Z.ltb_spec (rfind "/" stem) (Z.of_nat (String.length stem))) as [_|?]; [|lia].
  assert (slice (stem +:+ ".geojson") (rfind "/" stem + 1) (Z.of_nat (String.length stem))
          = basename stem) as ->.
  { unfold basename, slice. apply substring_app_l. lia. }
  destruct (all_dots (basename stem)); [done|].
  unfold slice. rewrite Z.sub_0_r, Nat2Z.id. simpl (Z.to_nat 0).
  rewrite substring_app_l by lia. apply substring_whole.
Qed.

Lemma output_filename_replaces_extension_witness :
  is_geojson "glacier.v2.geojson" = true
  ∧ ∃ stem, "glacier.v2.geojson" = stem +:+ ".geojson"
            ∧ output_filename_of "glacier.v2.geojson"
              = (if all_dots (basename stem) then "glacier.v2.geojson" else stem)
                +:+ ".mbtiles".
Proof.
  split; [reflexivity|].
  exact (output_filename_replaces_extension "glacier.v2.geojson" eq_refl).
Defined.

Section More.

Variable Tool : Type.
Variable tippecanoe : list string → Tool → run_outcome * Tool.
Variable CalledProcessError_str : list string → Z → string.
Variable tippecanoe_path : string.
Variable zoom_levels : Z * Z.

(** The loop body starts the tool exactly once, on the command built for
    its name, whatever comes of it. *)
Lemma convert_one_runs_once current_directory filename w :
  let r := convert_one Tool tippecanoe CalledProcessError_str
             tippecanoe_path zoom_levels current_directory filename w in
  ran_commands (trace (snd r))
  = ran_commands (trace w)
    ++ [command_of tippecanoe_path zoom_levels current_directory filename].
Proof.
  unfold convert_one, bind, try_except, subprocess_run_check, print, emit. simpl.
  destruct (tippecanoe _ (tool w)) as [[[| |]|e] tool']; simpl;
    try destruct (isinstance _ CalledProcessError); simpl;
    unfold ran_commands; rewrite !omap_app; simpl; by rewrite ?app_nil_r.
Qed.

Lemma loop_runs_prefix current_directory names : ∀ w r w',
  for_each names (λ filename,
    if endswith filename ".geojson"
    then convert_one Tool tippecanoe CalledProcessError_str
           tippecanoe_path zoom_levels current_directory filename
    else ret tt) w = (r, w') →
  ∃ k, ran_commands (trace w')
       = ran_commands (trace w)
         ++ take k (map (command_of tippecanoe_path zoom_levels current_directory)
                        (filter (λ f, is_geojson f = true) names))
       ∧ (r = Ok tt → k = length (filter (λ f, is_geojson f = true) names)).
Proof.
  induction names as [|filename names IH]; intros w r w'; simpl.
  - intros [= <- <-]. exists 0%nat. by rewrite app_nil_r.
  - rewrite filter_cons.
    destruct (decide (is_geojson filename = true)) as [Hext|Hext];
      unfold is_geojson in Hext.
    + rewrite Hext. unfold bind at 1.
      pose proof (convert_one_runs_once current_directory filename w) as Hone.
      simpl in Hone.
      destruct (convert_one _ _ _ _ _ _ _ w) as [[[]|e] w1]; simpl in *.
      * intros Hrest. destruct (IH _ _ _ Hrest) as (k & Hk & Hall).
        exists (S k). simpl. split.
        -- rewrite Hk, Hone. by rewrite <- app_assoc.
        -- intros Hok. by rewrite (Hall Hok).
      * intros [= <- <-]. exists 1%nat. simpl. rewrite take_0. by split.
    + apply not_true_is_false in Hext. rewrite Hext.
      unfold bind at 1. simpl. apply IH.
Qed.

End More.

(** X8: the tool is started only for the listed names that end in [.geojson],
    one after the other in listing order, each with the command built for
    it: at any end of the run, by return or by exception, the commands
    started are an initial part of that sequence, and all of it when the
    run returned. *)
Theorem tool_runs_only_for_geojson_names
    (Tool : Type) (tippecanoe : list string → Tool → run_outcome * Tool)
    (CalledProcessError_str : list string → Z → string)
    (tippecanoe_path : string) (zoom_levels : Z * Z) (w : world Tool) :
  let r := convert_geojson_to_mbtiles Tool tippecanoe CalledProcessError_str
             tippecanoe_path zoom_levels w in
  ∃ k, ran_commands (trace (snd r))
       = ran_commands (trace w)
         ++ take k (map (command_of tippecanoe_path zoom_levels (cwd w))
                        (filter (λ f, is_geojson f = true) (entries w)))
       ∧ (fst r = Ok tt → k = length (filter (λ f, is_geojson f = true) (entries w))).
Proof.
  intros r. destruct r as [res w'] eqn:Hr. subst r. simpl.
  unfold convert_geojson_to_mbtiles, bind at 1 2, getcwd, listdir in Hr. simpl in Hr.
  by apply loop_runs_prefix in Hr.
Qed.

(** X9: when the tool cannot be started for the first [.geojson] name of the
    listing and the exception is not a CalledProcessError, nothing catches
    it: the run ends there with that exception, after the announcement and
    the attempt, and no later name is tried. *)
Theorem tool_not_started_stops_batch
    (Tool : Type) (tippecanoe : list string → Tool → run_outcome * Tool)
    (CalledProcessError_str : list string → Z → string)
    (tippecanoe_path : string) (zoom_levels : Z * Z) (w : world Tool)
    skipped filename rest e tool' :
  entries w = skipped ++ filename :: rest →
  Forall (λ f, is_geojson f = false) skipped →
  is_geojson filename = true →
  tippecanoe (command_of tippecanoe_path zoom_levels (cwd w) filename) (tool w)
  = (NotStarted e, tool') →
  isinstance e CalledProcessError = false →
  convert_geojson_to_mbtiles Tool tippecanoe CalledProcessError_str
    tippecanoe_path zoom_levels w
  = (Raise e,
     World (cwd w) (entries w) tool'
       (trace w ++ [ Printed ("Converting " +:+ filename +:+ " to "
                              +:+ output_filename_of filename +:+ "...");
                     Ran (command_of tippecanoe_path zoom_levels (cwd w) filename)
                         (NotStarted e) ])).
Proof.
  intros Hentries Hskipped Hext Hrun Hclass.
  unfold convert_geojson_to_mbtiles, bind at 1 2, getcwd, listdir. simpl.
  rewrite Hentries at 1. clear Hentries.
  induction Hskipped as [|f skipped Hf _ IH]; simpl.
  - unfold is_geojson in Hext. rewrite Hext. unfold bind at 1.
    unfold convert_one, bind, try_except, subprocess_run_check, print, emit. simpl.
    rewrite Hrun. simpl. rewrite Hclass. by rewrite <- app_assoc.
  - unfold is_geojson in Hf. rewrite Hf. unfold bind at 1. simpl. exact IH.
Qed.

Lemma tool_not_started_stops_batch_witness :
  entries (World "/maps" ["README.md"; "a.geojson"; "b.geojson"] tt [])
  = ["README.md"] ++ "a.geojson" :: ["b.geojson"]
  ∧ main unit absent_tool short_error_str
      (World "/maps" ["README.md"; "a.geojson"; "b.geojson"] tt [])
    = (Raise tool_not_found,
       World "/maps" ["README.md"; "a.geojson"; "b.geojson"] tt
         [ Printed "Converting a.geojson to a.mbtiles...";
           Ran ["tippecanoe"; "-o"; "/maps/a.mbtiles"; "-z"; "14"; "-Z"; "6";
                "--generate-ids"; "-f"; "/maps/a.geojson"]
               (NotStarted tool_not_found) ]).
Proof.
  split; [reflexivity|].
  exact (tool_not_started_stops_batch unit absent_tool short_error_str
           "tippecanoe" (6, 14)
           (World "/maps" ["README.md"; "a.geojson"; "b.geojson"] tt [])
           ["README.md"] "a.geojson" ["b.geojson"] tool_not_found tt
           eq_refl
           (Forall_cons_2 (λ f, is_geojson f = false) "README.md" [] eq_refl
                          (Forall_nil_2 _))
           eq_refl eq_refl eq_refl).
Defined.

End TileBuilderMore.

(** ** More about the Property Copier *)

Module CopierMore.
Import Py PyFacts Copier CopierFacts.

(** *** Dicts and directory entries *)

Lemma dict_set_keys_present k v x d :
  dict_get k d = Some x → map fst (dict_set k v d) = map fst d.
Proof.
  induction d as [|[k' v'] d IH]; simpl; [done|].
  destruct (String.eqb k' k); simpl; [done|]. intros H. by rewrite IH.
Qed.

Lemma dict_set_keys_absent k v d :
  dict_get k d = None → map fst (dict_set k v d) = map fst d ++ [k].
Proof.
  induction d as [|[k' v'] d IH]; simpl; [done|].
  destruct (String.eqb k' k); simpl; [done|]. intros H. by rewrite IH.
Qed.

Lemma store_entry_names {A} name (x y : A) entries :
  lookup_entry name entries = Some x →
  map fst (store_entry name y entries) = map fst entries.
Proof.
  induction entries as [|[n z] entries IH]; simpl; [done|].
  destruct (String.eqb n name); simpl; [done|]. intros H. by rewrite IH.
Qed.

Lemma lookup_store_other {A} name other (y : A) entries :
  other ≠ name →
  lookup_entry name (store_entry other y entries) = lookup_entry name entries.
Proof.
  intros Hne. induction entries as [|[n z] entries IH]; simpl.
  - by destruct (String.eqb_spec other name).
  - destruct (String.eqb_spec n other) as [->|_]; simpl.
    + by destruct (String.eqb_spec other name).
    + by rewrite IH.
Qed.

(** *** Any run, to its end or to an exception *)

(** The one thing the loop body does to the directory: nothing, or storing
    something under the name it loaded (the processed document, or what a
    failed write leaves). *)
Lemma process_file_files DATA_DIR filename w :
  files (snd (process_file DATA_DIR filename w)) = files w
  ∨ ∃ data x,
      lookup_entry filename (files w) = Some (File (Some data))
      ∧ files (snd (process_file DATA_DIR filename w))
        = store_entry filename x (files w).
Proof.
  unfold process_file, bind, load, lift, dump, print.
  destruct (lookup_entry filename (files w)) as [[|[data|]]|] eqn:Hl; simpl; auto.
  destruct (process_data data) as [data'|] eqn:Hd; simpl; auto.
  rewrite Hl. simpl. right. destruct (dumpable data'); simpl; eauto.
Qed.

Lemma for_each_invariant {W A} (I : W → Prop) (xs : list A) (body : A → M W unit) :
  (∀ x w, I w → I (snd (body x w))) →
  ∀ w, I w → I (snd (for_each xs body w)).
Proof.
  intros Hbody. induction xs as [|x xs IH]; intros w Hw; simpl; [done|].
  unfold bind. specialize (Hbody x w Hw).
  destruct (body x w) as [[[]|e] w1]; simpl in *; [by apply IH|done].
Qed.

(** X1: the script creates no file and removes none: at any end of the
    run the data directory lists the names it listed, in the same order. *)
Theorem names_never_change DATA_DIR w :
  map fst (files (snd (main DATA_DIR w))) = map fst (files w).
Proof.
  unfold main, bind, listdir. simpl.
  apply (for_each_invariant (λ w', map fst (files w') = map fst (files w))); [|done].
  intros filename w1 Hw1.
  destruct (endswith filename ".geojson"); [|done].
  destruct (process_file_files DATA_DIR filename w1) as [->|(data & x & Hl & ->)];
    [done|].
  by rewrite (store_entry_names _ _ _ _ Hl).
Qed.

(** X2: an entry whose name does not end in [.geojson] is never read or
    written: at any end of the run it holds what it held. *)
Theorem other_files_untouched DATA_DIR w name :
  endswith name ".geojson" = false →
  lookup_entry name (files (snd (main DATA_DIR w))) = lookup_entry name (files w).
Proof.
  intros Hext. unfold main, bind, listdir. simpl.
  apply (for_each_invariant
           (λ w', lookup_entry name (files w') = lookup_entry name (files w))); [|done].
  intros filename w1 Hw1.
  destruct (endswith filename ".geojson") eqn:Hf; [|done].
  destruct (process_file_files DATA_DIR filename w1) as [->|(data & x & _ & ->)];
    [done|].
  rewrite lookup_store_other; [done|]. intros ->. congruence.
Qed.

Lemma other_files_untouched_witness :
  endswith "notes.txt" ".geojson" = false
  ∧ lookup_entry "notes.txt" (files (snd (main "/repo/data" data_dir)))
    = lookup_entry "notes.txt" (files data_dir).
Proof.
  split; [reflexivity|].
  exact (other_files_untouched "/repo/data" data_dir "notes.txt" eq_refl).
Defined.

(** *** A run that reached its end *)

Lemma process_file_stdout DATA_DIR filename w w' :
  process_file DATA_DIR filename w = (Ok tt, w') →
  stdout w' = stdout w ++ [saved_line DATA_DIR filename].
Proof.
  unfold process_file, bind, load, lift, dump, print.
  destruct (lookup_entry filename (files w)) as [[|[data|]]|] eqn:Hl; simpl; try done.
  destruct (process_data data) as [data'|]; simpl; [|done].
  rewrite Hl. simpl. destruct (dumpable data'); [|done]. by intros [= <-].
Qed.

Lemma loop_stdout DATA_DIR names : ∀ w w',
  for_each names (λ filename,
    if endswith filename ".geojson" then process_file DATA_DIR filename else ret tt) w
  = (Ok tt, w') →
  stdout w' = stdout w
              ++ map (saved_line DATA_DIR)
                     (filter (λ n, endswith n ".geojson" = true) names).
Proof.
  induction names as [|name names IH]; intros w w'; simpl.
  - intros [= <-]. by rewrite app_nil_r.
  - rewrite filter_cons. unfold bind at 1.
    destruct (decide (endswith name ".geojson" = true)) as [Hext|Hext].
    + rewrite Hext.
      destruct (process_file DATA_DIR name w) as [[[]|e] w1] eqn:Hb; [|done].
      intros Hrest. rewrite (IH _ _ Hrest), (process_file_stdout _ _ _ _ Hb).
      simpl. by rewrite <- app_assoc.
    + apply not_true_is_false in Hext. rewrite Hext. simpl. apply IH.
Qed.

(** X3: a run that reached its end has printed one line for each listed
    name that ends in [.geojson], in listing order, giving the path that was
    read and written, and nothing else. *)
Theorem one_line_per_processed_file DATA_DIR w w' :
  main DATA_DIR w = (Ok tt, w') →
  stdout w' = stdout w
              ++ map (saved_line DATA_DIR)
                     (filter (λ n, endswith n ".geojson" = true) (map fst (files w))).
Proof.
  unfold main, bind at 1, listdir. simpl. apply loop_stdout.
Qed.

Lemma one_line_per_processed_file_witness :
  stdout (snd (main "/repo/data" data_dir))
  = ["Processed and saved: /repo/data/glacier_A.geojson"].
Proof.
  exact (one_line_per_processed_file "/repo/data" data_dir
           (snd (main "/repo/data" data_dir)) eq_refl).
Defined.

(** What a run without an exception has stored under a name it processed. *)
Lemma main_ok_processed DATA_DIR w w' filename data :
  NoDup (map fst (files w)) →
  main DATA_DIR w = (Ok tt, w') →
  endswith filename ".geojson" = true →
  lookup_entry filename (files w) = Some (File (Some data)) →
  ∃ data', lookup_entry filename (files w') = Some (File (Some data'))
           ∧ process_data data = Ok data'.
Proof.
  intros Hnd Hmain Hext Hfile.
  apply main_ok_inv in Hmain; [|done].
  destruct (lookup_entry_after _ _ _ _ Hmain Hfile) as (x' & Hx' & _ & Hafter).
  simpl in Hafter. rewrite Hext in Hafter.
  destruct Hafter as (d & d' & [= <-] & Hd & _ & ->). eauto.
Qed.

Lemma process_data_shape members data' :
  process_data (JDict members) = Ok data' →
  ∃ members', data' = JDict members'
              ∧ map fst members' = map fst members
              ∧ ∀ k, k ≠ "features" → dict_get k members' = dict_get k members.
Proof.
  simpl. destruct (dict_get "features" members) as [features|] eqn:Hf.
  - destruct features as [| | | | |features|]; simpl;
      try done;
      try (destruct (mapM process_feature _); simpl; [|done];
           intros [= <-]; by exists members).
    destruct (mapM process_feature features) as [features'|]; simpl; [|done].
    intros [= <-]. eexists. split; [done|]. split.
    + by apply dict_set_keys_present with (JList features).
    + intros k Hk. by apply dict_get_set_ne.
  - intros [= <-]. by exists members.
Qed.

(** X4: in a run that reached its end a stored document has the top-level
    members of the document that was read, in the same order and, except
    for [features], with the same values; and it has as many features. *)
Theorem document_frame_kept DATA_DIR w w' filename members :
  NoDup (map fst (files w)) →
  main DATA_DIR w = (Ok tt, w') →
  endswith filename ".geojson" = true →
  lookup_entry filename (files w) = Some (File (Some (JDict members))) →
  ∃ members',
    lookup_entry filename (files w') = Some (File (Some (JDict members')))
    ∧ map fst members' = map fst members
    ∧ (∀ k, k ≠ "features" → dict_get k members' = dict_get k members)
    ∧ length (features_of (JDict members')) = length (features_of (JDict members)).
Proof.
  intros Hnd Hmain Hext Hfile.
  destruct (main_ok_processed _ _ _ _ _ Hnd Hmain Hext Hfile) as (data' & Hfile' & Hd).
  destruct (process_data_shape _ _ Hd) as (members' & -> & Hkeys & Hrest).
  exists members'. repeat split; try done.
  apply process_data_features in Hd. by apply mapM_length in Hd.
Qed.

Lemma document_frame_kept_witness :
  NoDup (map fst (files data_dir))
  ∧ ∃ members',
      lookup_entry "glacier_A.geojson" (files (snd (main "/repo/data" data_dir)))
      = Some (File (Some (JDict members')))
      ∧ map fst members' = ["type"; "features"]
      ∧ (∀ k, k ≠ "features"
              → dict_get k members'
                = dict_get k [("type", JStr "FeatureCollection");
                              ("features", JList [glacier_feature; lake_feature])])
      ∧ length (features_of (JDict members')) = 2%nat.
Proof.
  assert (NoDup (map fst (files data_dir))) as Hnd
    by (apply (bool_decide_unpack _); vm_compute; reflexivity).
  split; [exact Hnd|].
  exact (document_frame_kept "/repo/data" data_dir (snd (main "/repo/data" data_dir))
           "glacier_A.geojson" _ Hnd eq_refl eq_refl eq_refl).
Defined.

(** The loop body on a feature: the members keep their order and, except
    for [properties], their values; the property mapping keeps the value of
    every key but [sgi-id], and its keys in order, [sgi-id] going last when
    it is new. *)
Lemma process_feature_shape members feature' :
  process_feature (JDict members) = Ok feature' →
  ∃ members', feature' = JDict members'
    ∧ map fst members' = map fst members
    ∧ (∀ k, k ≠ "properties" → dict_get k members' = dict_get k members)
    ∧ ∀ props, dict_get "properties" members = Some (JDict props) →
        ∃ props', dict_get "properties" members' = Some (JDict props')
          ∧ (∀ k, k ≠ "sgi-id" → dict_get k props' = dict_get k props)
          ∧ map fst props'
            = (if dict_contains "SGI" props && negb (dict_contains "sgi-id" props)
               then map fst props ++ ["sgi-id"] else map fst props).
Proof.
  unfold process_feature.
  destruct (py_contains "SGI" _) as [[]|] eqn:Hc; simpl; [| |done].
  - destruct (dict_get "properties" members) as [properties|] eqn:Hp; simpl in *; [|done].
    destruct properties as [| | | | | |props]; simpl in *; try done.
    injection Hc as Hc. unfold dict_contains in Hc.
    destruct (dict_get "SGI" props) as [v|] eqn:Hv; simpl; [|done].
    intros [= <-]. eexists. split; [done|]. split.
    { by apply dict_set_keys_present with (JDict props). }
    split. { intros k Hk. by apply dict_get_set_ne. }
    intros props0 [= <-]. eexists. split; [apply dict_get_set_eq|]. split.
    { intros k Hk. by apply dict_get_set_ne. }
    unfold dict_contains. rewrite Hv. simpl.
    destruct (dict_get "sgi-id" props) eqn:Hid; simpl.
    + by apply dict_set_keys_present with j.
    + by apply dict_set_keys_absent.
  - intros [= <-]. exists members. repeat split; try done.
    intros props Hp. rewrite Hp in Hc. simpl in Hc. injection Hc as Hc.
    exists props. rewrite Hc. by repeat split.
Qed.

(** X5: in a run that reached its end nothing is taken from a feature: its
    members are those it had, in order, with the same values except for
    [properties]; its property mapping holds every key it held, in order and
    with the same value, [sgi-id] apart, which is added last when the
    feature has [SGI] and had no [sgi-id]. *)
Theorem features_only_gain_sgi_id DATA_DIR w w' filename data i members :
  NoDup (map fst (files w)) →
  main DATA_DIR w = (Ok tt, w') →
  endswith filename ".geojson" = true →
  lookup_entry filename (files w) = Some (File (Some data)) →
  features_of data !! i = Some (JDict members) →
  ∃ data' members',
    lookup_entry filename (files w') = Some (File (Some data'))
    ∧ features_of data' !! i = Some (JDict members')
    ∧ map fst members' = map fst members
    ∧ (∀ k, k ≠ "properties" → dict_get k members' = dict_get k members)
    ∧ ∀ props, dict_get "properties" members = Some (JDict props) →
        ∃ props', dict_get "properties" members' = Some (JDict props')
          ∧ (∀ k, k ≠ "sgi-id" → dict_get k props' = dict_get k props)
          ∧ map fst props'
            = (if dict_contains "SGI" props && negb (dict_contains "sgi-id" props)
               then map fst props ++ ["sgi-id"] else map fst props).
Proof.
  intros Hnd Hmain Hext Hfile Hi.
  destruct (main_ok_document _ _ _ _ _ Hnd Hmain Hext Hfile) as (data' & Hfile' & Hm).
  destruct (mapM_lookup _ _ _ _ _ Hm Hi) as (feature' & Hi' & Hf).
  destruct (process_feature_shape _ _ Hf) as (members' & -> & H).
  exists data', members'. eauto.
Qed.

Lemma features_only_gain_sgi_id_witness :
  NoDup (map fst (files data_dir))
  ∧ ∃ data' members',
      lookup_entry "glacier_A.geojson" (files (snd (main "/repo/data" data_dir)))
      = Some (File (Some data'))
      ∧ features_of data' !! 0%nat = Some (JDict members')
      ∧ map fst members' = ["type"; "properties"; "geometry"]
      ∧ dict_get "geometry" members' = Some JNull
      ∧ ∃ props', dict_get "properties" members' = Some (JDict props')
          ∧ dict_get "name" props' = Some (JStr "Aletsch")
          ∧ map fst props' = ["SGI"; "name"; "sgi-id"].
Proof.
  assert (NoDup (map fst (files data_dir))) as Hnd
    by (apply (bool_decide_unpack _); vm_compute; reflexivity).
  split; [exact Hnd|].
  destruct (features_only_gain_sgi_id "/repo/data" data_dir
              (snd (main "/repo/data" data_dir)) "glacier_A.geojson" glacier_A 0%nat
              [("type", JStr "Feature");
               ("properties", JDict [("SGI", JStr "B36-26"); ("name", JStr "Aletsch")]);
               ("geometry", JNull)]
              Hnd eq_refl eq_refl eq_refl eq_refl)
    as (data' & members' & Hfile & Hi & Hkeys & Hrest & Hprops).
  exists data', members'. split; [exact Hfile|]. split; [exact Hi|].
  split; [exact Hkeys|]. split; [exact (Hrest "geometry" ltac:(discriminate))|].
  destruct (Hprops _ eq_refl) as (props' & Hp & Hvals & Hpkeys).
  exists props'. split; [exact Hp|].
  split; [exact (Hvals "name" ltac:(discriminate))|exact Hpkeys].
Defined.

(** *** A run that an entry stops *)

Section Stopped.

Variable DATA_DIR : string.

Lemma loop_prefix_done mid mid' : ∀ done rest more out,
  NoDup (map fst (done ++ mid ++ rest)) →
  Forall2 entry_after mid mid' →
  ∃ out',
    for_each (map fst mid ++ more) (λ filename,
      if endswith filename ".geojson" then process_file DATA_DIR filename else ret tt)
      (World (done ++ mid ++ rest) out)
    = for_each more (λ filename,
        if endswith filename ".geojson" then process_file DATA_DIR filename else ret tt)
        (World (done ++ mid' ++ rest) out').
Proof.
  intros done rest more out Hnd Hall. revert done out Hnd.
  induction Hall as [|[name x] [name' x'] mid mid' Hx _ IH]; intros done out Hnd; simpl.
  - eauto.
  - assert (name' = name) as -> by apply Hx.
    assert (name ∉ map fst done) as Hfresh.
    { rewrite map_app in Hnd. apply NoDup_app in Hnd as (_ & Hd & _).
      intros Hin. apply (Hd _ Hin). simpl. apply elem_of_cons. by left. }
    destruct (body_ok_intro DATA_DIR name x x' done (mid ++ rest) out Hfresh Hx)
      as [out1 Hb].
    unfold bind at 1. rewrite Hb.
    destruct (IH (done ++ [(name, x')]) out1) as [out' Hrest].
    { rewrite <- app_assoc. simpl. rewrite !map_app in Hnd |- *. exact Hnd. }
    rewrite <- !app_assoc in Hrest. simpl in Hrest. eauto.
Qed.

Lemma process_file_raises name x e x' done rest out :
  name ∉ map fst done →
  entry_failure x = Some (e, x') →
  process_file DATA_DIR name (World (done ++ (name, x) :: rest) out)
  = (Raise e, World (done ++ (name, x') :: rest) out).
Proof.
  intros Hfresh Herr. unfold process_file, bind, load, lift, dump. simpl.
  rewrite lookup_entry_fresh by done.
  destruct x as [|[data|]]; simpl in *; try by injection Herr as <- <-.
  destruct (process_data data) as [data'|]; simpl; [|by injection Herr as <- <-].
  rewrite lookup_entry_fresh by done. simpl.
  destruct (dumpable data'); [done|]. injection Herr as <- <-.
  by rewrite store_entry_fresh.
Qed.

End Stopped.



End CopierMore.

(** ** More about the Archive Exploder *)

Module ExploderMore.
Import Py PyFacts Exploder ExploderFacts.

(** *** The target directory *)

Lemma basename_plain p : lacks "/" p = true → basename p = p.
Proof.
  intros Hp. unfold basename, slice, rfind. rewrite rfind_from_lacks by done.
  simpl. rewrite Z.sub_0_r, Nat2Z.id. apply substring_whole.
Qed.

(** X10: the target directory of a listed name (a name has no slash) is its
    text before the first dot, whatever follows that dot: [a.mbtiles] and
    [a.v2.mbtiles] have the same target. *)
Theorem target_is_text_before_first_dot stem rest :
  lacks "/" (stem +:+ "." +:+ rest) = true →
  lacks "." stem = true →
  newDirName_of (stem +:+ "." +:+ rest) = stem.
Proof.
  intros Hslash Hdot. unfold newDirName_of. rewrite basename_plain by done.
  change ("." +:+ rest) with (String "." rest). by apply split_first_app.
Qed.

Lemma target_is_text_before_first_dot_witness :
  newDirName_of ("a" +:+ "." +:+ "mbtiles") = "a"
  ∧ newDirName_of ("a" +:+ "." +:+ "v2.mbtiles") = "a".
Proof.
  split.
  - exact (target_is_text_before_first_dot "a" "mbtiles" eq_refl eq_refl).
  - exact (target_is_text_before_first_dot "a" "v2.mbtiles" eq_refl eq_refl).
Defined.

(** *** Zoom resolution, the other cases *)

(** X11: when both rows exist the stored values come back as the driver
    gives them (a TEXT value stays a string) and nothing is printed.  When
    neither is NULL the loop body prints the command built from them and
    hands it to [os.system]: the command is run, unless one of the two texts
    holds a NUL character, in which case [os.system] raises ValueError,
    nothing is run, and the exception leaves the loop body. *)
Theorem stored_zoom_levels_are_used
    (shell : string → directory → Z * directory) file minzoom maxzoom w :
  exists_in (cwd w) (newDirName_of file) = false →
  lookup_entry file (cwd w) = Some (File (Database (QRow minzoom) (QRow maxzoom))) →
  is_none minzoom = false →
  is_none maxzoom = false →
  let command := COMMAND_of (newDirName_of file) file minzoom maxzoom in
  fst (get_zoom_levels file w) = Ok (minzoom, maxzoom)
  ∧ trace (snd (get_zoom_levels file w)) = trace w
  ∧ if has_nul (format_zoom minzoom) || has_nul (format_zoom maxzoom)
    then fst (process_archive shell file w) = Raise (Exn ValueError "embedded null byte")
         ∧ trace (snd (process_archive shell file w))
           = trace w ++ [Printed ("Running " +:+ command)]
    else fst (process_archive shell file w) = Ok tt
         ∧ ∃ status,
             trace (snd (process_archive shell file w))
             = trace w ++ [Printed ("Running " +:+ command); Ran command status].
Proof.
  intros Hfree Hfile Hmin Hmax command.
  assert (get_zoom_levels file w = (Ok (minzoom, maxzoom), w)) as Hzoom.
  { unfold get_zoom_levels, bind at 1, sqlite3_connect. rewrite Hfile.
    by destruct w. }
  split; [by rewrite Hzoom|]. split; [by rewrite Hzoom|].
  assert (process_archive shell file w
          = (let! _ := print ("Running " +:+ command) in
             let! result := os_system shell command (zoom_has_nul minzoom maxzoom) in
             ret tt) w) as ->.
  { unfold process_archive, bind at 1, path_exists. rewrite Hfree.
    unfold bind at 1. rewrite Hzoom. simpl. by rewrite Hmin, Hmax. }
  unfold bind, print, os_system, zoom_has_nul. simpl.
  destruct (has_nul (format_zoom minzoom) || has_nul (format_zoom maxzoom)); simpl.
  - by split.
  - destruct (shell command (cwd w)) as [status cwd']. simpl.
    split; [done|]. exists status. by rewrite <- app_assoc.
Qed.

Lemma stored_zoom_levels_are_used_witness :
  fst (get_zoom_levels "y.mbtiles" (World [("y.mbtiles", File good_archive)] []))
  = Ok (ZStr "3", ZStr "10")
  ∧ fst (process_archive mkdir_shell "y.mbtiles"
           (World [("y.mbtiles", File good_archive)] [])) = Ok tt
  ∧ ∃ status,
      trace (snd (process_archive mkdir_shell "y.mbtiles"
                    (World [("y.mbtiles", File good_archive)] [])))
      = [ Printed "Running ogr2ogr -f MVT y y.mbtiles -dsco MINZOOM=3 -dsco MAXZOOM=10 -dsco COMPRESS=NO -dsco FORMAT=DIRECTORY";
          Ran "ogr2ogr -f MVT y y.mbtiles -dsco MINZOOM=3 -dsco MAXZOOM=10 -dsco COMPRESS=NO -dsco FORMAT=DIRECTORY" status ].
Proof.
  destruct (stored_zoom_levels_are_used mkdir_shell "y.mbtiles" (ZStr "3") (ZStr "10")
              (World [("y.mbtiles", File good_archive)] [])
              eq_refl eq_refl eq_refl eq_refl) as (Hzoom & _ & Hbody).
  split; [exact Hzoom|]. exact Hbody.
Defined.

(** X12: when the lookup raises nothing and at least one of the two rows
    is missing, the pair is the default (1, 12) with the warning printed: a
    value found for the other key is dropped. *)
Theorem one_missing_row_gives_defaults file minq maxq w :
  lookup_entry file (cwd w) = Some (File (Database minq maxq)) →
  lookup_raises (Database minq maxq) = None →
  minq = QNoRow ∨ maxq = QNoRow →
  get_zoom_levels file w
  = (Ok (ZInt 1, ZInt 12),
     World (cwd w)
       (trace w ++ [Printed ("Warning: No zoom levels found in metadata for "
                             +:+ file +:+ ". Skipping file.")])).
Proof.
  intros Hfile Hquiet Hmissing.
  unfold get_zoom_levels, bind at 1, sqlite3_connect. rewrite Hfile.
  destruct minq as [e1| |v1], maxq as [e2| |v2]; try done;
    destruct Hmissing; done.
Qed.

Lemma one_missing_row_gives_defaults_witness :
  get_zoom_levels "h.mbtiles" (World half_dir [])
  = (Ok (ZInt 1, ZInt 12),
     World half_dir
       [Printed "Warning: No zoom levels found in metadata for h.mbtiles. Skipping file."]).
Proof.
  exact (one_missing_row_gives_defaults "h.mbtiles" QNoRow (QRow (ZStr "9"))
           (World half_dir []) eq_refl eq_refl (or_introl eq_refl)).
Defined.

(** X13: a row whose value is NULL gives [None] for that bound, and the
    loop body skips the archive: it prints the skip line and returns, and
    no command is run. *)
Theorem null_zoom_skips_file
    (shell : string → directory → Z * directory) file minzoom maxzoom w :
  exists_in (cwd w) (newDirName_of file) = false →
  lookup_entry file (cwd w) = Some (File (Database (QRow minzoom) (QRow maxzoom))) →
  is_none minzoom || is_none maxzoom = true →
  fst (process_archive shell file w) = Ok tt
  ∧ trace (snd (process_archive shell file w))
    = trace w ++ [Printed ("Skipping " +:+ file +:+ " due to missing zoom levels.")].
Proof.
  intros Hfree Hfile Hnone.
  assert (process_archive shell file w
          = (Ok tt,
             World (cwd w)
               (trace w ++ [Printed ("Skipping " +:+ file
                                     +:+ " due to missing zoom levels.")]))) as ->.
  { unfold process_archive, bind at 1, path_exists. rewrite Hfree.
    unfold bind at 1, get_zoom_levels, bind at 1, sqlite3_connect. rewrite Hfile.
    simpl. by rewrite Hnone. }
  by split.
Qed.

Lemma null_zoom_skips_file_witness :
  fst (process_archive mkdir_shell "n.mbtiles" (World null_dir [])) = Ok tt
  ∧ trace (snd (process_archive mkdir_shell "n.mbtiles" (World null_dir [])))
    = [Printed "Skipping n.mbtiles due to missing zoom levels."].
Proof.
  exact (null_zoom_skips_file mkdir_shell "n.mbtiles" ZNone (ZStr "9")
           (World null_dir []) eq_refl eq_refl eq_refl).
Defined.

(** X14: an exception of the lookup whose class the except clause does
    not name leaves [get_zoom_levels] and the loop body as it is: nothing
    is printed for it and nothing is run. *)
Theorem unlisted_exception_propagates
    (shell : string → directory → Z * directory) file db e w :
  exists_in (cwd w) (newDirName_of file) = false →
  lookup_entry file (cwd w) = Some (File db) →
  lookup_raises db = Some e →
  caught_by_get_zoom_levels e = false →
  get_zoom_levels file w = (Raise e, w)
  ∧ process_archive shell file w = (Raise e, w).
Proof.
  intros Hfree Hfile Hraises Hclass.
  assert (get_zoom_levels file w = (Raise e, w)) as Hzoom.
  { unfold get_zoom_levels, bind at 1, sqlite3_connect. rewrite Hfile.
    destruct db as [|minq maxq]; [done|].
    unfold try_except, bind. destruct w as [d t]. simpl.
    destruct minq as [e1| |v1]; simpl in *.
    - injection Hraises as ->. by rewrite Hclass.
    - destruct maxq as [e2| |v2]; try done; simpl.
      injection Hraises as ->. by rewrite Hclass.
    - destruct maxq as [e2| |v2]; try done; simpl.
      injection Hraises as ->. by rewrite Hclass. }
  split; [done|].
  unfold process_archive, bind at 1, path_exists. rewrite Hfree.
  unfold bind at 1. by rewrite Hzoom.
Qed.

Lemma unlisted_exception_propagates_witness :
  get_zoom_levels "i.mbtiles" (World interrupted_dir [])
  = (Raise interrupted, World interrupted_dir [])
  ∧ process_archive mkdir_shell "i.mbtiles" (World interrupted_dir [])
    = (Raise interrupted, World interrupted_dir []).
Proof.
  exact (unlisted_exception_propagates mkdir_shell "i.mbtiles"
           (Database (QRaise interrupted) QNoRow) interrupted
           (World interrupted_dir []) eq_refl eq_refl eq_refl eq_refl).
Defined.

(** *** The whole run *)

(** The script up to its loop: two lines are printed, then the loop runs
    over the listing it found. *)
Lemma main_unfold (shell : string → directory → Z * directory) w :
  main shell w
  = for_each (map fst (cwd w))
      (λ file, if is_mbtiles file then process_archive shell file else ret tt)
      (World (cwd w) ((trace w ++ [Printed banner]) ++ [Printed (count_line (cwd w))])).
Proof. reflexivity. Qed.

Lemma preserves_for_each_in {A} (I : world → Prop) (xs : list A)
    (body : A → M world unit) :
  (∀ x, x ∈ xs → preserves I (body x)) → preserves I (for_each xs body).
Proof.
  induction xs as [|x xs IH]; intros Hbody; simpl.
  - apply preserves_ret.
  - apply preserves_bind.
    + apply Hbody. apply elem_of_cons. by left.
    + intros _. apply IH. intros y Hy. apply Hbody. apply elem_of_cons. by right.
Qed.

Section Invariant.

Variable shell : string → directory → Z * directory.

(** A property of the world and the names the loop may meet. *)
Variable I : world → Prop.
Variable met : string → Prop.

Hypothesis print_ok : ∀ line, preserves I (print line).
Hypothesis connect_ok : ∀ file, met file → preserves I (sqlite3_connect file).
Hypothesis system_ok : ∀ file minzoom maxzoom embedded_null,
  met file → is_none minzoom = false → is_none maxzoom = false →
  preserves I (os_system shell (COMMAND_of (newDirName_of file) file minzoom maxzoom)
                         embedded_null).

Lemma get_zoom_levels_preserves file : met file → preserves I (get_zoom_levels file).
Proof.
  intros Hmet. unfold get_zoom_levels.
  apply preserves_bind; [by apply connect_ok|]. intros conn.
  apply preserves_try_except.
  - apply preserves_bind; [destruct (fst conn); by intros w Hw|]. intros minzoom_result.
    apply preserves_bind; [destruct (snd conn); by intros w Hw|]. intros maxzoom_result.
    destruct minzoom_result, maxzoom_result;
      try apply preserves_ret;
      (apply preserves_bind; [apply print_ok|]; intros _; apply preserves_ret).
  - intros e. unfold handle_zoom_level_error.
    apply preserves_bind; [apply print_ok|]. intros _. apply preserves_ret.
Qed.

Lemma process_archive_preserves file : met file → preserves I (process_archive shell file).
Proof.
  intros Hmet. unfold process_archive.
  apply preserves_bind; [by intros w Hw|]. intros [].
  - apply print_ok.
  - apply preserves_bind; [by apply get_zoom_levels_preserves|]. intros zooms.
    destruct (is_none (fst zooms)) eqn:Hmin; simpl; [apply print_ok|].
    destruct (is_none (snd zooms)) eqn:Hmax; simpl; [apply print_ok|].
    apply preserves_bind; [apply print_ok|]. intros _.
    apply preserves_bind; [by apply system_ok|]. intros _.
    apply preserves_ret.
Qed.

Lemma loop_preserves names :
  (∀ file, file ∈ names → is_mbtiles file = true → met file) →
  preserves I (for_each names
                 (λ file, if is_mbtiles file then process_archive shell file else ret tt)).
Proof.
  intros Hmet. apply preserves_for_each_in. intros file Hin.
  destruct (is_mbtiles file) eqn:Hext; [|apply preserves_ret].
  apply process_archive_preserves. by apply Hmet.
Qed.

End Invariant.

(** X15: whatever happens later, the run has first printed the banner and
    then the number of listed names that end in [.mbtiles]; everything else
    it prints or runs comes after these two lines. *)
Theorem count_is_printed_first (shell : string → directory → Z * directory) w :
  ∃ later,
    trace (snd (main shell w))
    = trace w ++ Printed banner :: Printed (count_line (cwd w)) :: later.
Proof.
  rewrite main_unfold.
  set (start := (trace w ++ [Printed banner]) ++ [Printed (count_line (cwd w))]).
  assert (∃ later, trace (snd (for_each (map fst (cwd w))
            (λ file, if is_mbtiles file then process_archive shell file else ret tt)
            (World (cwd w) start))) = start ++ later) as [later ->].
  { apply (loop_preserves shell (λ w', ∃ later, trace w' = start ++ later) (λ _, True)).
    - intros line w1 [later Hw1]. exists (later ++ [Printed line]). simpl.
      by rewrite Hw1, <- app_assoc.
    - intros file _ w1 [later Hw1]. exists later. unfold sqlite3_connect.
      by destruct (lookup_entry file (cwd w1)) as [[|[]]|].
    - intros file minzoom maxzoom embedded_null _ _ _ w1 [later Hw1]. unfold os_system.
      destruct embedded_null; [by exists later|].
      destruct (shell _ (cwd w1)) as [status cwd']. simpl.
      eexists. by rewrite Hw1, <- app_assoc.
    - done.
    - exists []. simpl. by rewrite app_nil_r. }
  exists later. unfold start. by rewrite <- !app_assoc.
Qed.

Lemma commands_run_app t1 t2 :
  commands_run (t1 ++ t2) = commands_run t1 ++ commands_run t2.
Proof. apply omap_app. Qed.

(** X16: at any end of the run, every command it has run is the
    conversion command of a listed name that ends in [.mbtiles], built with
    two zoom values that are not [None]; nothing else is ever handed to the
    shell. *)
Theorem only_conversion_commands_are_run
    (shell : string → directory → Z * directory) w :
  ∃ commands,
    commands_run (trace (snd (main shell w))) = commands_run (trace w) ++ commands
    ∧ Forall (command_of_listed (map fst (cwd w))) commands.
Proof.
  rewrite main_unfold.
  apply (loop_preserves shell
           (λ w', ∃ commands,
                    commands_run (trace w') = commands_run (trace w) ++ commands
                    ∧ Forall (command_of_listed (map fst (cwd w))) commands)
           (λ file, file ∈ map fst (cwd w) ∧ is_mbtiles file = true)).
  - intros line w1 (commands & Hw1 & Hall). exists commands. simpl.
    rewrite commands_run_app, Hw1. simpl. by rewrite app_nil_r.
  - intros file _ w1 (commands & Hw1 & Hall). exists commands. unfold sqlite3_connect.
    by destruct (lookup_entry file (cwd w1)) as [[|[]]|].
  - intros file minzoom maxzoom embedded_null [Hin Hext] Hmin Hmax w1
      (commands & Hw1 & Hall).
    unfold os_system. destruct embedded_null; [by exists commands|].
    destruct (shell _ (cwd w1)) as [status cwd']. simpl.
    exists (commands ++ [COMMAND_of (newDirName_of file) file minzoom maxzoom]).
    rewrite commands_run_app, Hw1. simpl. split; [by rewrite <- app_assoc|].
    apply Forall_app. split; [done|]. apply Forall_singleton.
    exists file, minzoom, maxzoom. eauto 10.
  - by intros file Hin Hext.
  - exists []. simpl. rewrite !commands_run_app. simpl.
    rewrite !app_nil_r. by split.
Qed.

(** *** Runs that raise nothing *)

Lemma runs_ok_bind {A B} (I : world → Prop) (c : M world A) (k : A → M world B) :
  runs_ok I c → (∀ a, runs_ok I (k a)) → runs_ok I (bind c k).
Proof.
  intros Hc Hk w Hw. unfold bind.
  destruct (Hc w Hw) as (a & w1 & -> & Hw1). by apply Hk.
Qed.

Lemma runs_ok_for_each {A} (I : world → Prop) (xs : list A) (body : A → M world unit) :
  (∀ x, runs_ok I (body x)) → runs_ok I (for_each xs body).
Proof.
  intros Hbody. induction xs as [|x xs IH]; simpl.
  - intros w Hw. by exists tt, w.
  - apply runs_ok_bind; [apply Hbody|]. intros _. apply IH.
Qed.

Lemma sound_dir_lookup d name x :
  sound_dir d = true → lookup_entry name d = Some x → is_mbtiles name = true →
  opens_and_answers x = true.
Proof.
  unfold sound_dir. induction d as [|[n y] d IH]; simpl; [done|].
  intros [Hy Hd]%andb_prop.
  destruct (String.eqb_spec n name) as [->|_]; [|by apply IH].
  intros [= ->] Hext. rewrite Hext in Hy. exact Hy.
Qed.

Section Sound.

Variable shell : string → directory → Z * directory.

Hypothesis shell_keeps_sound : ∀ command d,
  sound_dir d = true → sound_dir (snd (shell command d)) = true.

Let sound (w : world) : Prop := sound_dir (cwd w) = true.

Lemma print_runs_ok line : runs_ok sound (print line).
Proof. intros w Hw. by eexists tt, _. Qed.

Lemma raised_class_is_caught e :
  query_caught (QRaise e) = true → caught_by_get_zoom_levels e = true.
Proof. destruct e as [[] msg]; done. Qed.

(** In a sound directory the zoom levels of a listed archive are resolved
    without an exception, and their texts hold no NUL character. *)
Lemma get_zoom_levels_sound file w :
  is_mbtiles file = true → sound w →
  ∃ zooms w', get_zoom_levels file w = (Ok zooms, w')
              ∧ sound w'
              ∧ zoom_has_nul (fst zooms) (snd zooms) = false.
Proof.
  intros Hext Hw. unfold get_zoom_levels, bind at 1, sqlite3_connect.
  destruct (lookup_entry file (cwd w)) as [x|] eqn:Hfile.
  - pose proof (sound_dir_lookup _ _ _ Hw Hfile Hext) as Hx.
    destruct x as [|[e|minq maxq]]; try done. simpl in Hx.
    apply andb_prop in Hx as [Hmin Hmax].
    unfold try_except, bind, handle_zoom_level_error, bind, print, ret.
    destruct minq as [e1| |v1];
      [apply raised_class_is_caught in Hmin| |]; simpl in *; rewrite ?Hmin; simpl;
      [by eexists _, _|..];
      (destruct maxq as [e2| |v2];
       [apply raised_class_is_caught in Hmax| |]; simpl in *; rewrite ?Hmax; simpl;
       try (by eexists _, _)).
    eexists _, _. split; [done|]. split; [done|]. simpl.
    unfold zoom_has_nul.
    apply negb_true_iff in Hmin, Hmax. by rewrite Hmin, Hmax.
  - unfold try_except, bind, handle_zoom_level_error, bind, print, ret. simpl.
    eexists _, _. split; [done|]. split; [|done].
    unfold sound, sound_dir in *. simpl. rewrite forallb_app, Hw. simpl.
    by rewrite orb_true_r.
Qed.

Lemma process_archive_runs_ok file :
  is_mbtiles file = true → runs_ok sound (process_archive shell file).
Proof.
  intros Hext w Hw. unfold process_archive, bind at 1, path_exists.
  destruct (exists_in (cwd w) (newDirName_of file)); [by apply print_runs_ok|].
  destruct (get_zoom_levels_sound file w Hext Hw) as (zooms & w1 & Hzoom & Hw1 & Hnul).
  unfold bind at 1. rewrite Hzoom.
  destruct (is_none (fst zooms) || is_none (snd zooms)); [by apply print_runs_ok|].
  unfold bind, print, os_system. simpl. rewrite Hnul.
  pose proof (shell_keeps_sound
                (COMMAND_of (newDirName_of file) file (fst zooms) (snd zooms))
                (cwd w1) Hw1) as H.
  destruct (shell _ (cwd w1)) as [status cwd']. by eexists _, _.
Qed.

Lemma main_runs_ok : runs_ok sound (main shell).
Proof.
  unfold main.
  apply runs_ok_bind; [apply print_runs_ok|]. intros _.
  apply runs_ok_bind; [intros w Hw; by eexists _, w|]. intros listing.
  apply runs_ok_bind; [apply print_runs_ok|]. intros _.
  apply runs_ok_bind; [intros w Hw; by eexists _, w|]. intros listing'.
  apply runs_ok_for_each. intros file.
  destruct (is_mbtiles file) eqn:Hext.
  - by apply process_archive_runs_ok.
  - intros w Hw. by exists tt, w.
Qed.

End Sound.



End ExploderMore.
